(** * Adaptive-card schema (models.py) and its use in llm_client.py / main.py

    The card schema is a family of pydantic models.  The development embeds
    - the raw value handed to [CardNode.model_validate] (the result of
      [json.loads]) as the type [json];
    - every model class as a validator from raw values to typed values,
      following pydantic's default (lax) validation of the declared field
      types, the [extra = "forbid"] configuration and the [kind]
      discriminator of the two unions [Node] and [NonLayoutNode];
    - [generate_card] and the HTTP endpoint as functions over an explicit
      outcome type (value returned or exception raised). *)

From Stdlib Require Import String Ascii List ZArith Bool Lia.
Import ListNotations.
Local Open Scope string_scope.
Local Open Scope list_scope.

(** ** Raw values *)

(** A Python [float], kept symbolic: a decimal numeral [m * 10^e] or one of
    the non-finite values. *)
Inductive float : Type :=
| Dec (m : Z) (e : Z)
| Inf (neg : bool)
| NaN.

(** The value produced by [json.loads]: [None], [bool], [int], [float],
    [str], [list] and [dict] (string keys, insertion order kept). *)
#[local] Unset Elimination Schemes.
Inductive json : Type :=
| JNull
| JBool (b : bool)
| JInt (n : Z)
| JFloat (x : float)
| JStr (s : string)
| JList (l : list json)
| JDict (d : list (string * json)).
#[local] Set Elimination Schemes.

(** The entries of a [dict], oldest first.  The keys of a Python dictionary
    are distinct; a lookup below takes the first entry of a key. *)
Definition dict := list (string * json).

(** ** Validation errors

    One entry of [ValidationError.errors()]: where ([loc]) and what. *)
Inductive loc_item : Type :=
| Key (k : string)
| Idx (i : nat).

Inductive error_type : Type :=
| missing
| extra_forbidden
| string_type
| list_type
| float_type
| float_parsing
| literal_error
| model_type
| model_attributes_type
| union_tag_not_found
| union_tag_invalid
| value_error (msg : string).

Record line_error : Type := LineError { loc : list loc_item; err : error_type }.

Inductive result (A : Type) : Type :=
| Ok (a : A)
| Err (es : list line_error).
Arguments Ok {A} a.
Arguments Err {A} es.

Definition errors {A} (r : result A) : list line_error :=
  match r with Ok _ => [] | Err es => es end.

Definition is_ok {A} (r : result A) : bool :=
  match r with Ok _ => true | Err _ => false end.

Definition fail {A} (t : error_type) : result A := Err [LineError [] t].

(** Errors found below a field, an index or a union tag get that item
    prepended to their location. *)
Definition under (i : loc_item) (e : line_error) : line_error :=
  LineError (i :: loc e) (err e).

Definition at_loc {A} (i : loc_item) (r : result A) : result A :=
  match r with
  | Ok a => Ok a
  | Err es => Err (map (under i) es)
  end.

(** ** Dictionary access *)

(** [lookup_with f k d]: the value stored under [k], passed through [f]. *)
Definition lookup_with {A} (f : json -> A) (k : string) : dict -> option A :=
  fix go (d : dict) : option A :=
    match d with
    | [] => None
    | (k', v) :: rest => if String.eqb k' k then Some (f v) else go rest
    end.

Definition dict_get (k : string) (d : dict) : option json :=
  lookup_with (fun v => v) k d.

Definition keys (d : dict) : list string := map fst d.

Definition mem (k : string) (ks : list string) : bool :=
  existsb (String.eqb k) ks.

(** A required field: absent is a [missing] error at that field. *)
Definition required {A} (k : string) (f : json -> result A) (d : dict)
  : result A :=
  match lookup_with f k d with
  | Some r => at_loc (Key k) r
  | None => Err [LineError [Key k] missing]
  end.

(** A field with a default: absent yields the default. *)
Definition with_default {A} (k : string) (f : json -> result A) (dflt : A)
    (d : dict) : result A :=
  match lookup_with f k d with
  | Some r => at_loc (Key k) r
  | None => Ok dflt
  end.

(** [extra = "forbid"]: one [extra_forbidden] error per key that is not a
    declared field. *)
Definition forbid_extra (fields : list string) (d : dict) : list line_error :=
  map (fun k => LineError [Key k] extra_forbidden)
      (filter (fun k => negb (mem k fields)) (keys d)).

(** ** Field types *)

(** [str]: only a string is one; nothing is coerced to it. *)
Definition str_v (j : json) : result string :=
  match j with
  | JStr s => Ok s
  | _ => fail string_type
  end.

(** [Literal[...]] of strings. *)
Definition literal_v (allowed : list string) (j : json) : result string :=
  match j with
  | JStr s => if mem s allowed then Ok s else fail literal_error
  | _ => fail literal_error
  end.

(** [List[T]]: a list, every item validated as [T]; the errors of all items
    are reported, each under its index. *)
Definition items_v {A} (f : json -> result A)
  : nat -> list json -> result (list A) :=
  fix go (i : nat) (l : list json) {struct l} : result (list A) :=
    match l with
    | [] => Ok []
    | x :: rest =>
        match at_loc (Idx i) (f x), go (S i) rest with
        | Ok a, Ok b => Ok (a :: b)
        | r1, r2 => Err (errors r1 ++ errors r2)
        end
    end.

Definition list_v {A} (f : json -> result A) (j : json) : result (list A) :=
  match j with
  | JList l => items_v f 0 l
  | _ => fail list_type
  end.

(** Applicative combination of field results: a model reports the errors of
    all its fields, in declaration order. *)
Definition ap {A B} (rf : result (A -> B)) (ra : result A) : result B :=
  match rf, ra with
  | Ok f, Ok a => Ok (f a)
  | _, _ => Err (errors rf ++ errors ra)
  end.

Notation "rf <*> ra" := (ap rf ra) (at level 61, left associativity).

(** The [extra_forbidden] errors come after the field errors. *)
Definition closed {A} (extra : list line_error) (r : result A) : result A :=
  match r, extra with
  | Ok a, [] => Ok a
  | _, _ => Err (errors r ++ extra)
  end.

(** A [model_validator(mode="after")] runs once the fields are valid. *)
Definition after {A B} (r : result A) (f : A -> result B) : result B :=
  match r with
  | Ok a => f a
  | Err es => Err es
  end.

(** A model validates a dictionary only. *)
Definition model_v {A} (fields_v : dict -> result A) (j : json) : result A :=
  match j with
  | JDict d => fields_v d
  | _ => fail model_type
  end.

(** ** [float] in lax mode

    pydantic's default mode takes a [float], an [int], a [bool], and a
    string that parses as a float literal: optional sign, then [inf],
    [infinity], [nan], or digits with an optional fraction and exponent,
    case-insensitive, surrounding (ASCII) white space ignored. *)

Definition is_space (c : ascii) : bool :=
  let n := nat_of_ascii c in
  Nat.eqb n 32 || (Nat.leb 9 n && Nat.leb n 13).

Definition is_digit (c : ascii) : bool :=
  let n := nat_of_ascii c in
  Nat.leb 48 n && Nat.leb n 57.

Definition digit_val (c : ascii) : Z := Z.of_nat (nat_of_ascii c - 48).

Definition lower (c : ascii) : ascii :=
  let n := nat_of_ascii c in
  if Nat.leb 65 n && Nat.leb n 90 then ascii_of_nat (n + 32) else c.

Fixpoint drop_spaces (l : list ascii) : list ascii :=
  match l with
  | c :: rest => if is_space c then drop_spaces rest else l
  | [] => []
  end.

Definition trim (l : list ascii) : list ascii :=
  rev (drop_spaces (rev (drop_spaces l))).

(** [digits acc n l]: reads the leading digits of [l] into [acc]; returns
    the number read so far, how many digits were read, and the rest. *)
Fixpoint digits (acc : Z) (n : Z) (l : list ascii) : Z * Z * list ascii :=
  match l with
  | c :: rest =>
      if is_digit c then digits (10 * acc + digit_val c)%Z (n + 1)%Z rest
      else (acc, n, l)
  | [] => (acc, n, [])
  end.

Definition sign (l : list ascii) : bool * list ascii :=
  match l with
  | "-"%char :: rest => (true, rest)
  | "+"%char :: rest => (false, rest)
  | _ => (false, l)
  end.

Definition signed (neg : bool) (z : Z) : Z := if neg then (- z)%Z else z.

Definition exponent (l : list ascii) : option Z :=
  match l with
  | [] => Some 0%Z
  | "e"%char :: rest =>
      let '(neg, rest) := sign rest in
      let '(e, n, rest) := digits 0 0 rest in
      match rest with
      | [] => if (n =? 0)%Z then None else Some (signed neg e)
      | _ => None
      end
  | _ => None
  end.

Definition number (neg : bool) (l : list ascii) : option float :=
  let '(m, n1, rest) := digits 0 0 l in
  let '(m, n2, rest) :=
    match rest with
    | "."%char :: rest => digits m 0 rest
    | _ => (m, 0%Z, rest)
    end in
  if (n1 + n2 =? 0)%Z then None
  else match exponent rest with
       | Some e => Some (Dec (signed neg m) (e - n2))
       | None => None
       end.

(** A float literal: [Sign? ( inf | infinity | nan | Number )], read
    without regard to case. *)
Definition parse_float (l : list ascii) : option float :=
  let '(neg, body) := sign (map lower l) in
  let word := string_of_list_ascii body in
  if (word =? "inf") || (word =? "infinity") then Some (Inf neg)
  else if word =? "nan" then Some NaN
  else number neg body.

Definition is_underscore (c : ascii) : bool := Ascii.eqb c "_"%char.

Fixpoint double_underscore (l : list ascii) : bool :=
  match l with
  | c :: (c' :: _) as rest =>
      (is_underscore c && is_underscore c') || double_underscore rest
  | _ => false
  end.

(** Underscores between the characters of a numeral are dropped; a leading,
    trailing or doubled underscore is not. *)
Definition strip_underscores (l : list ascii) : option (list ascii) :=
  if existsb is_underscore (firstn 1 l)
     || existsb is_underscore (firstn 1 (rev l))
     || negb (existsb is_underscore l)
     || double_underscore l
  then None
  else Some (filter (fun c => negb (is_underscore c)) l).

(** The string is parsed with the surrounding white space removed; failing
    that, with its underscores dropped. *)
Definition str_as_float (s : string) : option float :=
  let l := list_ascii_of_string s in
  match parse_float (trim l) with
  | Some x => Some x
  | None =>
      match strip_underscores l with
      | Some l' => parse_float l'
      | None => None
      end
  end.

Definition float_v (j : json) : result float :=
  match j with
  | JFloat x => Ok x
  | JInt n => Ok (Dec n 0)
  | JBool b => Ok (Dec (if b then 1 else 0) 0)
  | JStr s =>
      match str_as_float s with
      | Some x => Ok x
      | None => fail float_parsing
      end
  | _ => fail float_type
  end.

(** [Optional[float]]: [None] stays [None]. *)
Definition optional_v {A} (f : json -> result A) (j : json)
  : result (option A) :=
  match j with
  | JNull => Ok None
  | _ => match f j with Ok a => Ok (Some a) | Err es => Err es end
  end.

(** ** The card document (models.py)

    One constructor per node class; the [kind] of a node is fixed by its
    class, so it is not stored. *)

Inductive ChartType : Type := bar | line.
Inductive Direction : Type := horizontal | vertical.

Record ChartSeries : Type := mkChartSeries
  { name : string;
    values : list float }.

#[local] Unset Elimination Schemes.
Inductive Node : Type :=
| CardNode (children : list Node)
| TitleNode (text : string)
| SubtitleNode (text : string)
| TextNode (text : string)
| BulletsNode (items : list string)
| TableNode (columns : list string) (rows : list (list string))
| ChartNode (chartType : ChartType) (categories : list string)
            (series : list ChartSeries)
| ResizableLayoutNode (direction : Direction) (panels : list Panel)
with Panel : Type :=
| mkPanel (defaultSize : option float) (minSize : option float)
          (children : list Node).
#[local] Set Elimination Schemes.

Definition chartType_v (j : json) : result ChartType :=
  match literal_v ["bar"; "line"] j with
  | Ok s => Ok (if s =? "bar" then bar else line)
  | Err es => Err es
  end.

Definition direction_v (j : json) : result Direction :=
  match literal_v ["horizontal"; "vertical"] j with
  | Ok s => Ok (if s =? "horizontal" then horizontal else vertical)
  | Err es => Err es
  end.

(** *** Leaf node classes *)

Definition TitleNode_fields (d : dict) : result Node :=
  closed (forbid_extra ["kind"; "text"] d)
    (Ok (fun _ t => TitleNode t)
       <*> required "kind" (literal_v ["title"]) d
       <*> required "text" str_v d).

Definition SubtitleNode_fields (d : dict) : result Node :=
  closed (forbid_extra ["kind"; "text"] d)
    (Ok (fun _ t => SubtitleNode t)
       <*> required "kind" (literal_v ["subtitle"]) d
       <*> required "text" str_v d).

Definition TextNode_fields (d : dict) : result Node :=
  closed (forbid_extra ["kind"; "text"] d)
    (Ok (fun _ t => TextNode t)
       <*> required "kind" (literal_v ["text"]) d
       <*> required "text" str_v d).

Definition BulletsNode_fields (d : dict) : result Node :=
  closed (forbid_extra ["kind"; "items"] d)
    (Ok (fun _ l => BulletsNode l)
       <*> required "kind" (literal_v ["bullets"]) d
       <*> required "items" (list_v str_v) d).

(** [TableNode] declares its three fields and no validator of its own. *)
Definition TableNode_fields (d : dict) : result Node :=
  closed (forbid_extra ["kind"; "columns"; "rows"] d)
    (Ok (fun _ c r => TableNode c r)
       <*> required "kind" (literal_v ["table"]) d
       <*> required "columns" (list_v str_v) d
       <*> required "rows" (list_v (list_v str_v)) d).

Definition ChartSeries_fields (d : dict) : result ChartSeries :=
  closed (forbid_extra ["name"; "values"] d)
    (Ok mkChartSeries
       <*> required "name" str_v d
       <*> required "values" (list_v float_v) d).

(** The loop of [validate_series_lengths]. *)
Fixpoint check_series (category_count : nat) (series_list : list ChartSeries)
  : result unit :=
  match series_list with
  | [] => Ok tt
  | s :: rest =>
      if negb (Nat.eqb (length (values s)) category_count)
      then fail (value_error
        "every series.values array must have the same length as categories")
      else check_series category_count rest
  end.

Definition validate_series_lengths (chartType : ChartType)
    (categories : list string) (series_list : list ChartSeries)
  : result Node :=
  match categories, series_list with
  | [], _ :: _ =>
      fail (value_error
        "categories must not be empty when series are provided")
  | _, _ =>
      match check_series (length categories) series_list with
      | Ok _ => Ok (ChartNode chartType categories series_list)
      | Err es => Err es
      end
  end.

Definition ChartNode_fields (d : dict) : result Node :=
  after
    (closed (forbid_extra ["kind"; "chartType"; "categories"; "series"] d)
       (Ok (fun _ t c s => (t, c, s))
          <*> required "kind" (literal_v ["chart"]) d
          <*> required "chartType" chartType_v d
          <*> required "categories" (list_v str_v) d
          <*> required "series" (list_v (model_v ChartSeries_fields)) d))
    (fun '(t, c, s) => validate_series_lengths t c s).

(** *** Container classes; the child unions are forward references *)

Section Containers.
Variable Node_v : json -> result Node.
Variable NonLayoutNode_v : json -> result Node.

Definition Panel_fields (d : dict) : result Panel :=
  closed (forbid_extra ["defaultSize"; "minSize"; "children"] d)
    (Ok mkPanel
       <*> with_default "defaultSize" (optional_v float_v) None d
       <*> with_default "minSize" (optional_v float_v) None d
       <*> required "children" (list_v NonLayoutNode_v) d).

Definition ResizableLayoutNode_fields (d : dict) : result Node :=
  closed (forbid_extra ["kind"; "direction"; "panels"] d)
    (Ok (fun _ dir ps => ResizableLayoutNode dir ps)
       <*> required "kind" (literal_v ["resizableLayout"]) d
       <*> required "direction" direction_v d
       <*> required "panels" (list_v (model_v Panel_fields)) d).

Definition CardNode_fields (d : dict) : result Node :=
  closed (forbid_extra ["kind"; "children"] d)
    (Ok (fun _ c => CardNode c)
       <*> required "kind" (literal_v ["card"]) d
       <*> required "children" (list_v Node_v) d).
End Containers.

(** *** The two discriminated unions

    The [kind] entry of the dictionary selects the class; a class that is
    not a member of the union is an invalid tag. *)

Fixpoint Node_validate (j : json) {struct j} : result Node :=
  match j with
  | JDict d =>
      match dict_get "kind" d with
      | None => fail union_tag_not_found
      | Some (JStr tag) =>
          if tag =? "card" then
            at_loc (Key tag) (CardNode_fields Node_validate d)
          else if tag =? "title" then at_loc (Key tag) (TitleNode_fields d)
          else if tag =? "subtitle" then
            at_loc (Key tag) (SubtitleNode_fields d)
          else if tag =? "text" then at_loc (Key tag) (TextNode_fields d)
          else if tag =? "bullets" then
            at_loc (Key tag) (BulletsNode_fields d)
          else if tag =? "table" then at_loc (Key tag) (TableNode_fields d)
          else if tag =? "chart" then at_loc (Key tag) (ChartNode_fields d)
          else if tag =? "resizableLayout" then
            at_loc (Key tag)
              (ResizableLayoutNode_fields NonLayoutNode_validate d)
          else fail union_tag_invalid
      | Some _ => fail union_tag_invalid
      end
  | _ => fail model_attributes_type
  end
with NonLayoutNode_validate (j : json) {struct j} : result Node :=
  match j with
  | JDict d =>
      match dict_get "kind" d with
      | None => fail union_tag_not_found
      | Some (JStr tag) =>
          if tag =? "title" then at_loc (Key tag) (TitleNode_fields d)
          else if tag =? "subtitle" then
            at_loc (Key tag) (SubtitleNode_fields d)
          else if tag =? "text" then at_loc (Key tag) (TextNode_fields d)
          else if tag =? "bullets" then
            at_loc (Key tag) (BulletsNode_fields d)
          else if tag =? "table" then at_loc (Key tag) (TableNode_fields d)
          else if tag =? "chart" then at_loc (Key tag) (ChartNode_fields d)
          else if tag =? "card" then
            at_loc (Key tag) (CardNode_fields Node_validate d)
          else fail union_tag_invalid
      | Some _ => fail union_tag_invalid
      end
  | _ => fail model_attributes_type
  end.

Definition Panel_validate : json -> result Panel :=
  model_v (Panel_fields NonLayoutNode_validate).

(** [CardNode.model_validate(raw)]. *)
Definition CardNode_model_validate : json -> result Node :=
  model_v (CardNode_fields Node_validate).

(** ** Serialisation: [model_dump]

    Every declared field under its name, in declaration order; [None] is
    dumped as null. *)

Definition dump_str (s : string) : json := JStr s.
Definition dump_strs (l : list string) : json := JList (map JStr l).

Definition dump_opt_float (o : option float) : json :=
  match o with
  | Some x => JFloat x
  | None => JNull
  end.

Definition dump_chartType (t : ChartType) : json :=
  JStr (match t with bar => "bar" | line => "line" end).

Definition dump_direction (t : Direction) : json :=
  JStr (match t with horizontal => "horizontal" | vertical => "vertical" end).

Definition ChartSeries_dump (s : ChartSeries) : json :=
  JDict [("name", JStr (name s)); ("values", JList (map JFloat (values s)))].

Fixpoint model_dump (n : Node) : json :=
  match n with
  | CardNode c =>
      JDict [("kind", JStr "card"); ("children", JList (map model_dump c))]
  | TitleNode t => JDict [("kind", JStr "title"); ("text", JStr t)]
  | SubtitleNode t => JDict [("kind", JStr "subtitle"); ("text", JStr t)]
  | TextNode t => JDict [("kind", JStr "text"); ("text", JStr t)]
  | BulletsNode l => JDict [("kind", JStr "bullets"); ("items", dump_strs l)]
  | TableNode c r =>
      JDict [("kind", JStr "table"); ("columns", dump_strs c);
             ("rows", JList (map dump_strs r))]
  | ChartNode t c s =>
      JDict [("kind", JStr "chart"); ("chartType", dump_chartType t);
             ("categories", dump_strs c);
             ("series", JList (map ChartSeries_dump s))]
  | ResizableLayoutNode dir ps =>
      JDict [("kind", JStr "resizableLayout");
             ("direction", dump_direction dir);
             ("panels", JList (map Panel_dump ps))]
  end
with Panel_dump (p : Panel) : json :=
  match p with
  | mkPanel ds ms c =>
      JDict [("defaultSize", dump_opt_float ds);
             ("minSize", dump_opt_float ms);
             ("children", JList (map model_dump c))]
  end.

(** ** llm_client.py and main.py *)

#[local] Unset Elimination Schemes.
Inductive exn : Type :=
| ValidationError (es : list line_error)
| ValueError (msg : string) (cause : option exn)
| RuntimeError (msg : string)
| HTTPException (status_code : Z) (detail : string) (cause : option exn).
#[local] Set Elimination Schemes.

Inductive outcome (A : Type) : Type :=
| Return (a : A)
| Raise (e : exn).
Arguments Return {A} a.
Arguments Raise {A} e.

Section Service.
(** [_call_model]: the language model's answer, already through
    [json.loads], or the exception raised on the way. *)
Variable _call_model : string -> outcome json.
(** [str(exc)] of a pydantic [ValidationError]. *)
Variable str_ValidationError : list line_error -> string.

Definition str_exn (e : exn) : string :=
  match e with
  | ValidationError es => str_ValidationError es
  | ValueError msg _ => msg
  | RuntimeError msg => msg
  | HTTPException _ detail _ => detail
  end.

Definition generate_card (query : string) : outcome Node :=
  match _call_model query with
  | Raise e => Raise e
  | Return raw =>
      match CardNode_model_validate raw with
      | Ok card => Return card
      | Err es =>
          let exc := ValidationError es in
          Raise (ValueError
                   ("Model returned invalid card JSON: " ++ str_exn exc)
                   (Some exc))
      end
  end.

Definition generate_card_endpoint (query : string) : outcome Node :=
  match generate_card query with
  | Return card => Return card
  | Raise exc => Raise (HTTPException 500 (str_exn exc) (Some exc))
  end.
End Service.

(** ** Positions of a raw document

    The places of a raw value that the schema reads as a model: the root
    (a [CardNode]), an item of a [children] list of a card ([Node]) or of a
    panel ([NonLayoutNode]), an item of [panels] ([Panel]) and an item of
    [series] ([ChartSeries]). *)

Inductive slot : Type :=
| RootSlot
| NodeSlot
| NonLayoutSlot
| PanelSlot
| SeriesSlot.

Definition valid_at (s : slot) (j : json) : bool :=
  match s with
  | RootSlot => is_ok (CardNode_model_validate j)
  | NodeSlot => is_ok (Node_validate j)
  | NonLayoutSlot => is_ok (NonLayoutNode_validate j)
  | PanelSlot => is_ok (Panel_validate j)
  | SeriesSlot => is_ok (model_v ChartSeries_fields j)
  end.

Definition node_slot (s : slot) : bool :=
  match s with
  | RootSlot | NodeSlot | NonLayoutSlot => true
  | PanelSlot | SeriesSlot => false
  end.

Definition has_kind (tag : string) (d : dict) : Prop :=
  dict_get "kind" d = Some (JStr tag).

Inductive step : slot -> json -> slot -> json -> Prop :=
| step_root d c x :
    dict_get "children" d = Some (JList c) -> In x c ->
    step RootSlot (JDict d) NodeSlot x
| step_card s d c x :
    s = NodeSlot \/ s = NonLayoutSlot ->
    has_kind "card" d ->
    dict_get "children" d = Some (JList c) -> In x c ->
    step s (JDict d) NodeSlot x
| step_chart s d l x :
    s = NodeSlot \/ s = NonLayoutSlot ->
    has_kind "chart" d ->
    dict_get "series" d = Some (JList l) -> In x l ->
    step s (JDict d) SeriesSlot x
| step_layout d ps x :
    has_kind "resizableLayout" d ->
    dict_get "panels" d = Some (JList ps) -> In x ps ->
    step NodeSlot (JDict d) PanelSlot x
| step_panel d c x :
    dict_get "children" d = Some (JList c) -> In x c ->
    step PanelSlot (JDict d) NonLayoutSlot x.

(** [occurs s j s' j']: reading [j] as [s], the value [j'] sits at a
    position read as [s']. *)
Inductive occurs : slot -> json -> slot -> json -> Prop :=
| occurs_here s j : occurs s j s j
| occurs_below s j s1 j1 s2 j2 :
    step s j s1 j1 -> occurs s1 j1 s2 j2 -> occurs s j s2 j2.

(** The kinds of the schema and the fields each class declares. *)
Definition recognized_kinds : list string :=
  ["card"; "title"; "subtitle"; "text"; "bullets"; "table"; "chart";
   "resizableLayout"].

Definition fields_of_kind (tag : string) : option (list string) :=
  if tag =? "card" then Some ["kind"; "children"]
  else if tag =? "title" then Some ["kind"; "text"]
  else if tag =? "subtitle" then Some ["kind"; "text"]
  else if tag =? "text" then Some ["kind"; "text"]
  else if tag =? "bullets" then Some ["kind"; "items"]
  else if tag =? "table" then Some ["kind"; "columns"; "rows"]
  else if tag =? "chart" then
    Some ["kind"; "chartType"; "categories"; "series"]
  else if tag =? "resizableLayout" then Some ["kind"; "direction"; "panels"]
  else None.

Definition declared_fields (s : slot) (d : dict) : option (list string) :=
  match s with
  | RootSlot => Some ["kind"; "children"]
  | PanelSlot => Some ["defaultSize"; "minSize"; "children"]
  | SeriesSlot => Some ["name"; "values"]
  | NodeSlot | NonLayoutSlot =>
      match dict_get "kind" d with
      | Some (JStr tag) => fields_of_kind tag
      | _ => None
      end
  end.

(** ** Raw documents

    Builders for the raw form of each class, and [EXAMPLE_CARD] of
    llm_client.py. *)

Definition raw_card (children : list json) : json :=
  JDict [("kind", JStr "card"); ("children", JList children)].

Definition raw_title (text : string) : json :=
  JDict [("kind", JStr "title"); ("text", JStr text)].

Definition raw_subtitle (text : string) : json :=
  JDict [("kind", JStr "subtitle"); ("text", JStr text)].

Definition raw_text (text : string) : json :=
  JDict [("kind", JStr "text"); ("text", JStr text)].

Definition raw_table (columns : list string) (rows : list (list string))
  : json :=
  JDict [("kind", JStr "table"); ("columns", dump_strs columns);
         ("rows", JList (map dump_strs rows))].

Definition raw_series (name : string) (values : list json) : json :=
  JDict [("name", JStr name); ("values", JList values)].

Definition raw_chart (chartType : string) (categories : list string)
    (series : list json) : json :=
  JDict [("kind", JStr "chart"); ("chartType", JStr chartType);
         ("categories", dump_strs categories); ("series", JList series)].

Definition raw_panel (sizes : dict) (children : list json) : json :=
  JDict (sizes ++ [("children", JList children)]).

Definition raw_layout (direction : string) (panels : list json) : json :=
  JDict [("kind", JStr "resizableLayout"); ("direction", JStr direction);
         ("panels", JList panels)].

Definition EXAMPLE_CARD : json :=
  raw_card
    [ raw_title "Website traffic overview";
      raw_card
        [ raw_subtitle "High-level summary";
          raw_text
            "Traffic is growing steadily week over week with healthier conversion rates." ];
      raw_layout "horizontal"
        [ raw_panel [("defaultSize", JInt 40)]
            [ raw_text "This week vs last week traffic comparison.";
              raw_table ["Day"; "This week"; "Last week"]
                [ ["Mon"; "1,200"; "1,050"];
                  ["Tue"; "1,350"; "1,100"] ] ];
          raw_panel [("defaultSize", JInt 60)]
            [ raw_chart "line" ["Mon"; "Tue"]
                [ raw_series "This week" [JInt 1200; JInt 1350];
                  raw_series "Last week" [JInt 1050; JInt 1100] ] ] ] ].

(** A panel whose child is a card that holds a layout of its own. *)
Definition layout_in_card_in_panel : json :=
  raw_card
    [ raw_layout "horizontal"
        [ raw_panel []
            [ raw_card [ raw_layout "vertical" [ raw_panel [] [] ] ] ] ] ].


(** ** Errors as data or as text

    [structured e]: the error value itself holds locations and reasons as
    data, as pydantic's [ValidationError] does; an exception built from a
    message string holds text only. *)
Definition structured (e : exn) : Prop :=
  match e with
  | ValidationError (_ :: _) => True
  | _ => False
  end.

(** [only_fields fs d]: every key of [d] is a declared field. *)
Definition only_fields (fs : list string) (d : dict) : Prop :=
  forall k, In k (keys d) -> In k fs.

(** ** Induction on documents

    A card holds nodes and a layout holds panels that hold nodes again, so
    the induction goes through the lists. *)

Section NodeInd.
Variable P : Node -> Prop.
Variable Q : Panel -> Prop.
Hypothesis HCard : forall c, Forall P c -> P (CardNode c).
Hypothesis HTitle : forall t, P (TitleNode t).
Hypothesis HSubtitle : forall t, P (SubtitleNode t).
Hypothesis HText : forall t, P (TextNode t).
Hypothesis HBullets : forall l, P (BulletsNode l).
Hypothesis HTable : forall c r, P (TableNode c r).
Hypothesis HChart : forall t c s, P (ChartNode t c s).
Hypothesis HLayout : forall dir ps, Forall Q ps ->
  P (ResizableLayoutNode dir ps).
Hypothesis HPanel : forall ds ms c, Forall P c -> Q (mkPanel ds ms c).

Fixpoint Node_ind (n : Node) : P n :=
  match n with
  | CardNode c =>
      HCard c
        ((fix all (l : list Node) : Forall P l :=
            match l with
            | [] => Forall_nil P
            | x :: rest => Forall_cons x (Node_ind x) (all rest)
            end) c)
  | TitleNode t => HTitle t
  | SubtitleNode t => HSubtitle t
  | TextNode t => HText t
  | BulletsNode l => HBullets l
  | TableNode c r => HTable c r
  | ChartNode t c s => HChart t c s
  | ResizableLayoutNode dir ps =>
      HLayout dir ps
        ((fix all (l : list Panel) : Forall Q l :=
            match l with
            | [] => Forall_nil Q
            | x :: rest => Forall_cons x (Panel_ind x) (all rest)
            end) ps)
  end
with Panel_ind (p : Panel) : Q p :=
  match p with
  | mkPanel ds ms c =>
      HPanel ds ms c
        ((fix all (l : list Node) : Forall P l :=
            match l with
            | [] => Forall_nil P
            | x :: rest => Forall_cons x (Node_ind x) (all rest)
            end) c)
  end.
End NodeInd.

(** ** Well-formed documents

    The two rules a document obeys beyond its field types: the length rule
    of [validate_series_lengths] at every chart, and no layout among the
    children of a panel. *)

Definition is_layout (n : Node) : bool :=
  match n with
  | ResizableLayoutNode _ _ => true
  | _ => false
  end.

Definition is_empty {A} (l : list A) : bool :=
  match l with
  | [] => true
  | _ :: _ => false
  end.

Definition chart_rule (categories : list string) (series : list ChartSeries)
  : bool :=
  (negb (is_empty categories) || is_empty series)
  && forallb (fun s => Nat.eqb (length (values s)) (length categories)) series.

Definition Panel_children (p : Panel) : list Node :=
  match p with
  | mkPanel _ _ c => c
  end.

Fixpoint well_formed (n : Node) : bool :=
  match n with
  | CardNode c => forallb well_formed c
  | ChartNode _ c s => chart_rule c s
  | ResizableLayoutNode _ ps => forallb Panel_well_formed ps
  | _ => true
  end
with Panel_well_formed (p : Panel) : bool :=
  match p with
  | mkPanel _ _ c =>
      forallb (fun x => negb (is_layout x)) c && forallb well_formed c
  end.

(** Every node of a document, the document first, and every panel. *)
Fixpoint nodes (n : Node) : list Node :=
  n :: match n with
       | CardNode c => flat_map nodes c
       | ResizableLayoutNode _ ps => flat_map Panel_nodes ps
       | _ => []
       end
with Panel_nodes (p : Panel) : list Node :=
  match p with
  | mkPanel _ _ c => flat_map nodes c
  end.

Fixpoint panels_in (n : Node) : list Panel :=
  match n with
  | CardNode c => flat_map panels_in c
  | ResizableLayoutNode _ ps => flat_map Panel_panels ps
  | _ => []
  end
with Panel_panels (p : Panel) : list Panel :=
  p :: match p with
       | mkPanel _ _ c => flat_map panels_in c
       end.

(** ** Induction on raw values *)

Section JsonInd.
Variable P : json -> Prop.
Hypothesis HNull : P JNull.
Hypothesis HBool : forall b, P (JBool b).
Hypothesis HInt : forall n, P (JInt n).
Hypothesis HFloat : forall x, P (JFloat x).
Hypothesis HStr : forall s, P (JStr s).
Hypothesis HList : forall l, Forall P l -> P (JList l).
Hypothesis HDict : forall d, Forall (fun kv => P (snd kv)) d -> P (JDict d).

Fixpoint json_ind (j : json) : P j :=
  match j with
  | JNull => HNull
  | JBool b => HBool b
  | JInt n => HInt n
  | JFloat x => HFloat x
  | JStr s => HStr s
  | JList l =>
      HList l
        ((fix all (l : list json) : Forall P l :=
            match l with
            | [] => Forall_nil P
            | x :: rest => Forall_cons x (json_ind x) (all rest)
            end) l)
  | JDict d =>
      HDict d
        ((fix all (d : dict) : Forall (fun kv => P (snd kv)) d :=
            match d with
            | [] => Forall_nil _
            | kv :: rest => Forall_cons kv (json_ind (snd kv)) (all rest)
            end) d)
  end.
End JsonInd.

(** ** The call to the language model (llm_client.py)

    [_get_client] reads the API key from the environment; [_call_model]
    asks the model and parses its answer.  The environment, the remote call
    (from the client and the request to the content of the first choice)
    and [json.loads] are the parameters. *)

Record OpenAI : Type := mkOpenAI { api_key : string }.

(** Python's truth value of a string: empty is false. *)
Definition nonempty (s : string) : bool :=
  match s with
  | EmptyString => false
  | String _ _ => true
  end.

Section Upstream.
Variable environ : string -> option string.
Variable completion_content : OpenAI -> string -> outcome (option string).
Variable json_loads : string -> outcome json.

Definition _get_client : outcome OpenAI :=
  match environ "OPENAI_API_KEY" with
  | Some key =>
      if nonempty key then Return (mkOpenAI key)
      else Raise (RuntimeError "OPENAI_API_KEY environment variable is not set")
  | None =>
      Raise (RuntimeError "OPENAI_API_KEY environment variable is not set")
  end.

Definition _call_model (user_prompt : string) : outcome json :=
  match _get_client with
  | Raise e => Raise e
  | Return client =>
      match completion_content client user_prompt with
      | Raise e => Raise e
      | Return None => Raise (RuntimeError "Empty response from language model")
      | Return (Some content) =>
          if nonempty content then json_loads content
          else Raise (RuntimeError "Empty response from language model")
      end
  end.
End Upstream.

(** * Properties *)

(** ** Results and field combinators *)

Lemma is_ok_true {A} (r : result A) : is_ok r = true <-> exists a, r = Ok a.
Proof.
  destruct r; simpl; split; intros H; eauto; try discriminate.
  destruct H; discriminate.
Qed.

Lemma is_ok_false {A} (r : result A) :
  is_ok r = false <-> exists es, r = Err es.
Proof.
  destruct r; simpl; split; intros H; eauto; try discriminate.
  destruct H; discriminate.
Qed.

Lemma is_ok_at_loc {A} i (r : result A) : is_ok (at_loc i r) = is_ok r.
Proof. destruct r; reflexivity. Qed.

Lemma at_loc_ok_inv {A} i (r : result A) a : at_loc i r = Ok a -> r = Ok a.
Proof. destruct r; simpl; congruence. Qed.

Lemma ap_ok_inv {A B} (rf : result (A -> B)) (ra : result A) b :
  rf <*> ra = Ok b -> exists f a, rf = Ok f /\ ra = Ok a /\ b = f a.
Proof.
  destruct rf, ra; simpl; intros H; try discriminate.
  inversion H; eauto.
Qed.

Lemma closed_ok_inv {A} extra (r : result A) a :
  closed extra r = Ok a -> extra = [] /\ r = Ok a.
Proof. destruct r, extra; simpl; intros H; try discriminate; auto. Qed.

Lemma after_ok_inv {A B} (r : result A) (f : A -> result B) b :
  after r f = Ok b -> exists a, r = Ok a /\ f a = Ok b.
Proof. destruct r; simpl; intros H; try discriminate; eauto. Qed.

Lemma model_v_ok_inv {A} (f : dict -> result A) j a :
  model_v f j = Ok a -> exists d, j = JDict d /\ f d = Ok a.
Proof. destruct j; simpl; intros H; try discriminate; eauto. Qed.

Lemma lookup_with_get {A} (f : json -> A) k d :
  lookup_with f k d = option_map f (dict_get k d).
Proof.
  induction d as [|[k' v] rest IH]; simpl; [reflexivity|].
  destruct (String.eqb k' k); auto.
Qed.

Lemma required_ok_inv {A} k (f : json -> result A) d a :
  required k f d = Ok a -> exists v, dict_get k d = Some v /\ f v = Ok a.
Proof.
  unfold required. rewrite lookup_with_get.
  destruct (dict_get k d) as [v|]; simpl; [|discriminate].
  intros H. apply at_loc_ok_inv in H. eauto.
Qed.

Lemma required_ok_intro {A} k (f : json -> result A) d v a :
  dict_get k d = Some v -> f v = Ok a -> required k f d = Ok a.
Proof.
  intros Hk Hv. unfold required. rewrite lookup_with_get, Hk. simpl.
  now rewrite Hv.
Qed.


Lemma mem_In k ks : mem k ks = true <-> In k ks.
Proof.
  unfold mem. rewrite existsb_exists. split.
  - intros (x & Hx & E). apply String.eqb_eq in E. now subst.
  - intros H. exists k. split; [assumption | apply String.eqb_refl].
Qed.

Lemma forbid_extra_nil fields d :
  forbid_extra fields d = [] <-> only_fields fields d.
Proof.
  unfold forbid_extra, only_fields. split.
  - intros H k Hk.
    apply map_eq_nil in H.
    destruct (mem k fields) eqn:E; [now apply mem_In|].
    assert (In k (filter (fun k => negb (mem k fields)) (keys d))) as Hin.
    { apply filter_In. split; [assumption | now rewrite E]. }
    rewrite H in Hin. destruct Hin.
  - intros H.
    replace (filter (fun k => negb (mem k fields)) (keys d)) with
      (@nil string); [reflexivity|].
    symmetry. induction (keys d) as [|k ks IH]; simpl; [reflexivity|].
    assert (mem k fields = true) as E by (apply mem_In, H; now left).
    rewrite E. simpl. apply IH. intros k' Hk'. apply H. now right.
Qed.

Lemma str_v_ok_inv j s : str_v j = Ok s -> j = JStr s.
Proof. destruct j; simpl; intros H; try discriminate. now inversion H. Qed.

Lemma literal_v_ok_inv allowed j s :
  literal_v allowed j = Ok s -> j = JStr s /\ In s allowed.
Proof.
  destruct j; simpl; try discriminate.
  destruct (mem s0 allowed) eqn:E; [|discriminate].
  intros H. inversion H; subst. split; [reflexivity | now apply mem_In].
Qed.

Lemma items_v_ok_inv {A} (f : json -> result A) l : forall i ys,
  items_v f i l = Ok ys -> Forall2 (fun x y => f x = Ok y) l ys.
Proof.
  induction l as [|x rest IH]; simpl; intros i ys H.
  - inversion H. constructor.
  - destruct (f x) as [a|] eqn:Ex; simpl in H; [|discriminate].
    destruct (items_v f (S i) rest) as [b|] eqn:Er; [|discriminate].
    inversion H; subst. constructor; [assumption | eapply IH; eassumption].
Qed.

Lemma items_v_ok_intro {A} (f : json -> result A) l ys :
  Forall2 (fun x y => f x = Ok y) l ys -> forall i, items_v f i l = Ok ys.
Proof.
  induction 1 as [|x y l ys Hx _ IH]; simpl; intros i; [reflexivity|].
  now rewrite Hx, IH.
Qed.

Lemma list_v_ok_inv {A} (f : json -> result A) j ys :
  list_v f j = Ok ys ->
  exists l, j = JList l /\ Forall2 (fun x y => f x = Ok y) l ys.
Proof.
  destruct j; simpl; intros H; try discriminate.
  eexists; split; [reflexivity | eapply items_v_ok_inv; eassumption].
Qed.

Lemma Forall2_length_eq {A B} (R : A -> B -> Prop) l l' :
  Forall2 R l l' -> length l = length l'.
Proof. induction 1; simpl; congruence. Qed.

(** ** What a successful validation of each class says about the input *)

(** [fields_inv H]: from [H : closed extra (Ok mk <*> f1 <*> ... <*> fn) = Ok n]
    to the key condition [Hextra] and one hypothesis per field. *)
Ltac fields_inv H Hextra :=
  apply closed_ok_inv in H as [Hextra H];
  apply (proj1 (forbid_extra_nil _ _)) in Hextra;
  repeat (let f := fresh "f" in let a := fresh "a" in let Ha := fresh "Ha" in
          apply ap_ok_inv in H as (f & a & H & Ha & ->));
  inversion H; subst; clear H.

(** [req_inv key Hget Hval]: the required field [key] is present ([Hget])
    and its value is valid ([Hval]). *)
Ltac req_inv key Hget Hval :=
  match goal with
  | H : required key _ _ = Ok _ |- _ =>
      apply required_ok_inv in H as (? & Hget & Hval)
  end.

Ltac kind_inv Hkind :=
  let Hv := fresh "Hv" in
  let Hin := fresh "Hin" in
  req_inv "kind" Hkind Hv;
  apply literal_v_ok_inv in Hv as [-> Hin];
  destruct Hin as [<-|[]].

Ltac list_inv H l :=
  apply list_v_ok_inv in H as (l & -> & H).

Lemma chartType_v_ok_inv j t :
  chartType_v j = Ok t -> j = dump_chartType t.
Proof.
  unfold chartType_v. destruct (literal_v _ j) as [s|] eqn:E; [|discriminate].
  intros H. apply literal_v_ok_inv in E as [-> Hin]. inversion H.
  destruct Hin as [<-|[<-|[]]]; reflexivity.
Qed.

Lemma direction_v_ok_inv j t :
  direction_v j = Ok t -> j = dump_direction t.
Proof.
  unfold direction_v. destruct (literal_v _ j) as [s|] eqn:E; [|discriminate].
  intros H. apply literal_v_ok_inv in E as [-> Hin]. inversion H.
  destruct Hin as [<-|[<-|[]]]; reflexivity.
Qed.

Lemma strs_ok_inv l ys :
  Forall2 (fun x y => str_v x = Ok y) l ys -> l = map JStr ys.
Proof.
  induction 1 as [|x y l ys Hx _ IH]; simpl; [reflexivity|].
  apply str_v_ok_inv in Hx. congruence.
Qed.

Lemma list_str_v_ok_inv j ys : list_v str_v j = Ok ys -> j = dump_strs ys.
Proof.
  intros H. list_inv H l. apply strs_ok_inv in H. now subst.
Qed.

Lemma TitleNode_fields_inv d n :
  TitleNode_fields d = Ok n ->
  exists t, n = TitleNode t /\ has_kind "title" d /\
    dict_get "text" d = Some (JStr t) /\ only_fields ["kind"; "text"] d.
Proof.
  unfold TitleNode_fields. intros H. fields_inv H Hextra.
  kind_inv Hkind. req_inv "text" Htext Hv. apply str_v_ok_inv in Hv as ->.
  eauto.
Qed.

Lemma SubtitleNode_fields_inv d n :
  SubtitleNode_fields d = Ok n ->
  exists t, n = SubtitleNode t /\ has_kind "subtitle" d /\
    dict_get "text" d = Some (JStr t) /\ only_fields ["kind"; "text"] d.
Proof.
  unfold SubtitleNode_fields. intros H. fields_inv H Hextra.
  kind_inv Hkind. req_inv "text" Htext Hv. apply str_v_ok_inv in Hv as ->.
  eauto.
Qed.

Lemma TextNode_fields_inv d n :
  TextNode_fields d = Ok n ->
  exists t, n = TextNode t /\ has_kind "text" d /\
    dict_get "text" d = Some (JStr t) /\ only_fields ["kind"; "text"] d.
Proof.
  unfold TextNode_fields. intros H. fields_inv H Hextra.
  kind_inv Hkind. req_inv "text" Htext Hv. apply str_v_ok_inv in Hv as ->.
  eauto.
Qed.

Lemma BulletsNode_fields_inv d n :
  BulletsNode_fields d = Ok n ->
  exists l, n = BulletsNode l /\ has_kind "bullets" d /\
    dict_get "items" d = Some (dump_strs l) /\
    only_fields ["kind"; "items"] d.
Proof.
  unfold BulletsNode_fields. intros H. fields_inv H Hextra.
  kind_inv Hkind. req_inv "items" Hitems Hv.
  apply list_str_v_ok_inv in Hv as ->. eauto.
Qed.

Lemma rows_ok_inv l ys :
  Forall2 (fun x y => list_v str_v x = Ok y) l ys -> l = map dump_strs ys.
Proof.
  induction 1 as [|x y l ys Hx _ IH]; simpl; [reflexivity|].
  apply list_str_v_ok_inv in Hx. congruence.
Qed.

Lemma TableNode_fields_inv d n :
  TableNode_fields d = Ok n ->
  exists c r, n = TableNode c r /\ has_kind "table" d /\
    dict_get "columns" d = Some (dump_strs c) /\
    dict_get "rows" d = Some (JList (map dump_strs r)) /\
    only_fields ["kind"; "columns"; "rows"] d.
Proof.
  unfold TableNode_fields. intros H. fields_inv H Hextra.
  kind_inv Hkind. req_inv "columns" Hcols Hv.
  apply list_str_v_ok_inv in Hv as ->.
  req_inv "rows" Hrows Hv. list_inv Hv l. apply rows_ok_inv in Hv as ->.
  eauto 8.
Qed.

Lemma ChartSeries_fields_inv d s :
  ChartSeries_fields d = Ok s ->
  exists l, dict_get "name" d = Some (JStr (name s)) /\
    dict_get "values" d = Some (JList l) /\
    Forall2 (fun x y => float_v x = Ok y) l (values s) /\
    only_fields ["name"; "values"] d.
Proof.
  unfold ChartSeries_fields. intros H. fields_inv H Hextra.
  req_inv "name" Hname Hv. apply str_v_ok_inv in Hv as ->.
  req_inv "values" Hvalues Hv. list_inv Hv l.
  simpl. eauto.
Qed.

Lemma check_series_ok n l :
  check_series n l = Ok tt <-> Forall (fun s => length (values s) = n) l.
Proof.
  induction l as [|s rest IH]; simpl.
  - split; auto.
  - destruct (Nat.eqb (length (values s)) n) eqn:E; simpl.
    + apply Nat.eqb_eq in E. rewrite IH. split.
      * intros H. now constructor.
      * intros H. now inversion H.
    + apply Nat.eqb_neq in E. split; [discriminate|].
      intros H. inversion H. contradiction.
Qed.

Lemma validate_series_lengths_ok t c s n :
  validate_series_lengths t c s = Ok n <->
  n = ChartNode t c s /\ (c = [] -> s = []) /\
  Forall (fun x => length (values x) = length c) s.
Proof.
  unfold validate_series_lengths.
  destruct c as [|x c].
  - destruct s as [|y s]; simpl.
    + split; [intros H; inversion H; auto | intros (-> & _); reflexivity].
    + split; [discriminate | intros (_ & H & _)].
      specialize (H eq_refl). discriminate.
  - destruct (check_series (length (x :: c)) s) as [[]|es] eqn:E.
    + apply check_series_ok in E.
      destruct s; (split; [intros H; inversion H | intros (-> & _); reflexivity]);
        repeat split; auto; discriminate.
    + assert (~ Forall (fun y => length (values y) = length (x :: c)) s) as Hn.
      { intros H. apply check_series_ok in H. congruence. }
      destruct s; (split; [discriminate | intros (_ & _ & H); contradiction]).
Qed.

Lemma ChartNode_fields_inv d n :
  ChartNode_fields d = Ok n ->
  exists t c s l,
    n = ChartNode t c s /\ has_kind "chart" d /\
    dict_get "chartType" d = Some (dump_chartType t) /\
    dict_get "categories" d = Some (dump_strs c) /\
    dict_get "series" d = Some (JList l) /\
    Forall2 (fun x y => model_v ChartSeries_fields x = Ok y) l s /\
    (c = [] -> s = []) /\
    Forall (fun x => length (values x) = length c) s /\
    only_fields ["kind"; "chartType"; "categories"; "series"] d.
Proof.
  unfold ChartNode_fields. intros H.
  apply after_ok_inv in H as (tcs & H & Hafter).
  fields_inv H Hextra. kind_inv Hkind.
  req_inv "chartType" Htype Hv. apply chartType_v_ok_inv in Hv as ->.
  req_inv "categories" Hcats Hv. apply list_str_v_ok_inv in Hv as ->.
  req_inv "series" Hseries Hv. list_inv Hv l.
  cbv beta iota in Hafter.
  apply validate_series_lengths_ok in Hafter as (-> & Hempty & Hlen).
  do 4 eexists. repeat split; eauto.
Qed.

Lemma Panel_fields_inv v d p :
  Panel_fields v d = Ok p ->
  exists ds ms c l,
    p = mkPanel ds ms c /\
    with_default "defaultSize" (optional_v float_v) None d = Ok ds /\
    with_default "minSize" (optional_v float_v) None d = Ok ms /\
    dict_get "children" d = Some (JList l) /\
    Forall2 (fun x y => v x = Ok y) l c /\
    only_fields ["defaultSize"; "minSize"; "children"] d.
Proof.
  unfold Panel_fields. intros H. fields_inv H Hextra.
  req_inv "children" Hchildren Hv. list_inv Hv l.
  do 4 eexists. repeat split; eauto.
Qed.

Lemma ResizableLayoutNode_fields_inv v d n :
  ResizableLayoutNode_fields v d = Ok n ->
  exists dir ps l,
    n = ResizableLayoutNode dir ps /\ has_kind "resizableLayout" d /\
    dict_get "direction" d = Some (dump_direction dir) /\
    dict_get "panels" d = Some (JList l) /\
    Forall2 (fun x y => model_v (Panel_fields v) x = Ok y) l ps /\
    only_fields ["kind"; "direction"; "panels"] d.
Proof.
  unfold ResizableLayoutNode_fields. intros H. fields_inv H Hextra.
  kind_inv Hkind.
  req_inv "direction" Hdir Hv. apply direction_v_ok_inv in Hv as ->.
  req_inv "panels" Hpanels Hv. list_inv Hv l.
  do 3 eexists. repeat split; eauto.
Qed.

Lemma CardNode_fields_inv v d n :
  CardNode_fields v d = Ok n ->
  exists c l,
    n = CardNode c /\ has_kind "card" d /\
    dict_get "children" d = Some (JList l) /\
    Forall2 (fun x y => v x = Ok y) l c /\
    only_fields ["kind"; "children"] d.
Proof.
  unfold CardNode_fields. intros H. fields_inv H Hextra.
  kind_inv Hkind.
  req_inv "children" Hchildren Hv. list_inv Hv l.
  do 2 eexists. repeat split; eauto.
Qed.

(** ** The unions: which class validates a dictionary *)

Lemma Node_validate_kind d tag :
  has_kind tag d ->
  Node_validate (JDict d) =
    if tag =? "card" then at_loc (Key tag) (CardNode_fields Node_validate d)
    else if tag =? "title" then at_loc (Key tag) (TitleNode_fields d)
    else if tag =? "subtitle" then at_loc (Key tag) (SubtitleNode_fields d)
    else if tag =? "text" then at_loc (Key tag) (TextNode_fields d)
    else if tag =? "bullets" then at_loc (Key tag) (BulletsNode_fields d)
    else if tag =? "table" then at_loc (Key tag) (TableNode_fields d)
    else if tag =? "chart" then at_loc (Key tag) (ChartNode_fields d)
    else if tag =? "resizableLayout" then
      at_loc (Key tag) (ResizableLayoutNode_fields NonLayoutNode_validate d)
    else fail union_tag_invalid.
Proof. unfold has_kind. intros H. simpl. rewrite H. reflexivity. Qed.

Lemma NonLayoutNode_validate_kind d tag :
  has_kind tag d ->
  NonLayoutNode_validate (JDict d) =
    if tag =? "title" then at_loc (Key tag) (TitleNode_fields d)
    else if tag =? "subtitle" then at_loc (Key tag) (SubtitleNode_fields d)
    else if tag =? "text" then at_loc (Key tag) (TextNode_fields d)
    else if tag =? "bullets" then at_loc (Key tag) (BulletsNode_fields d)
    else if tag =? "table" then at_loc (Key tag) (TableNode_fields d)
    else if tag =? "chart" then at_loc (Key tag) (ChartNode_fields d)
    else if tag =? "card" then
      at_loc (Key tag) (CardNode_fields Node_validate d)
    else fail union_tag_invalid.
Proof. unfold has_kind. intros H. simpl. rewrite H. reflexivity. Qed.

Lemma union_ok_kind j :
  is_ok (Node_validate j) = true \/ is_ok (NonLayoutNode_validate j) = true ->
  exists d tag, j = JDict d /\ has_kind tag d.
Proof.
  unfold has_kind.
  destruct j as [| | | | |l|d]; simpl; try (intros [H|H]; discriminate).
  destruct (dict_get "kind" d) as [[| | | |tag| |]|] eqn:Hk;
    try (intros [H|H]; discriminate).
  intros _. exists d, tag. split; [reflexivity | assumption].
Qed.

Ltac tag_cases H :=
  repeat match type of H with
  | context [String.eqb ?tag ?lit] =>
      let E := fresh "E" in
      destruct (String.eqb tag lit) eqn:E;
      [apply String.eqb_eq in E; subst tag; apply at_loc_ok_inv in H |]
  end.

Lemma Node_validate_inv j n :
  Node_validate j = Ok n ->
  exists d, j = JDict d /\
    ((has_kind "card" d /\ CardNode_fields Node_validate d = Ok n) \/
     (has_kind "title" d /\ TitleNode_fields d = Ok n) \/
     (has_kind "subtitle" d /\ SubtitleNode_fields d = Ok n) \/
     (has_kind "text" d /\ TextNode_fields d = Ok n) \/
     (has_kind "bullets" d /\ BulletsNode_fields d = Ok n) \/
     (has_kind "table" d /\ TableNode_fields d = Ok n) \/
     (has_kind "chart" d /\ ChartNode_fields d = Ok n) \/
     (has_kind "resizableLayout" d /\
      ResizableLayoutNode_fields NonLayoutNode_validate d = Ok n)).
Proof.
  intros H.
  destruct (union_ok_kind j) as (d & tag & -> & Hk).
  { left. now rewrite H. }
  exists d. split; [reflexivity|].
  rewrite (Node_validate_kind d tag Hk) in H.
  tag_cases H; try discriminate; tauto.
Qed.

Lemma NonLayoutNode_validate_inv j n :
  NonLayoutNode_validate j = Ok n ->
  exists d, j = JDict d /\
    ((has_kind "title" d /\ TitleNode_fields d = Ok n) \/
     (has_kind "subtitle" d /\ SubtitleNode_fields d = Ok n) \/
     (has_kind "text" d /\ TextNode_fields d = Ok n) \/
     (has_kind "bullets" d /\ BulletsNode_fields d = Ok n) \/
     (has_kind "table" d /\ TableNode_fields d = Ok n) \/
     (has_kind "chart" d /\ ChartNode_fields d = Ok n) \/
     (has_kind "card" d /\ CardNode_fields Node_validate d = Ok n)).
Proof.
  intros H.
  destruct (union_ok_kind j) as (d & tag & -> & Hk).
  { right. now rewrite H. }
  exists d. split; [reflexivity|].
  rewrite (NonLayoutNode_validate_kind d tag Hk) in H.
  tag_cases H; try discriminate; tauto.
Qed.

Lemma valid_at_card s d :
  s = NodeSlot \/ s = NonLayoutSlot -> has_kind "card" d ->
  valid_at s (JDict d) = is_ok (CardNode_fields Node_validate d).
Proof.
  intros [-> | ->] Hk; unfold valid_at.
  - rewrite (Node_validate_kind d _ Hk). simpl. apply is_ok_at_loc.
  - rewrite (NonLayoutNode_validate_kind d _ Hk). simpl. apply is_ok_at_loc.
Qed.

Lemma valid_at_chart s d :
  s = NodeSlot \/ s = NonLayoutSlot -> has_kind "chart" d ->
  valid_at s (JDict d) = is_ok (ChartNode_fields d).
Proof.
  intros [-> | ->] Hk; unfold valid_at.
  - rewrite (Node_validate_kind d _ Hk). simpl. apply is_ok_at_loc.
  - rewrite (NonLayoutNode_validate_kind d _ Hk). simpl. apply is_ok_at_loc.
Qed.

Lemma valid_at_layout d :
  has_kind "resizableLayout" d ->
  valid_at NodeSlot (JDict d) =
    is_ok (ResizableLayoutNode_fields NonLayoutNode_validate d) /\
  valid_at NonLayoutSlot (JDict d) = false.
Proof.
  intros Hk. unfold valid_at. split.
  - rewrite (Node_validate_kind d _ Hk). simpl. apply is_ok_at_loc.
  - rewrite (NonLayoutNode_validate_kind d _ Hk). reflexivity.
Qed.

Lemma Forall2_In_ok {A} (f : json -> result A) l ys x :
  Forall2 (fun x y => f x = Ok y) l ys -> In x l -> is_ok (f x) = true.
Proof.
  induction 1 as [|x' y l ys Hx _ IH]; simpl; intros Hin; [contradiction|].
  destruct Hin as [<-|Hin]; [now rewrite Hx | now apply IH].
Qed.

(** ** Validity goes down to every position *)

Lemma step_valid s j s' j' :
  step s j s' j' -> valid_at s j = true -> valid_at s' j' = true.
Proof.
  intros Hstep Hv. destruct Hstep as
    [d c x Hc Hin | s d c x Hs Hk Hc Hin | s d l x Hs Hk Hl Hin
    | d ps x Hk Hps Hin | d c x Hc Hin]; simpl.
  - simpl in Hv. apply is_ok_true in Hv as (n & Hv).
    apply CardNode_fields_inv in Hv as (c' & l' & _ & _ & Hc' & Hall & _).
    rewrite Hc in Hc'. inversion Hc'; subst l'.
    eapply Forall2_In_ok; eassumption.
  - rewrite (valid_at_card s d Hs Hk) in Hv.
    apply is_ok_true in Hv as (n & Hv).
    apply CardNode_fields_inv in Hv as (c' & l' & _ & _ & Hc' & Hall & _).
    rewrite Hc in Hc'. inversion Hc'; subst l'.
    eapply Forall2_In_ok; eassumption.
  - rewrite (valid_at_chart s d Hs Hk) in Hv.
    apply is_ok_true in Hv as (n & Hv).
    apply ChartNode_fields_inv in Hv
      as (t & c & ss & l' & _ & _ & _ & _ & Hl' & Hall & _).
    rewrite Hl in Hl'. inversion Hl'; subst l'.
    eapply Forall2_In_ok; eassumption.
  - rewrite (proj1 (valid_at_layout d Hk)) in Hv.
    apply is_ok_true in Hv as (n & Hv).
    apply ResizableLayoutNode_fields_inv in Hv
      as (dir & ps' & l' & _ & _ & _ & Hl' & Hall & _).
    rewrite Hps in Hl'. inversion Hl'; subst l'.
    unfold Panel_validate. eapply Forall2_In_ok; eassumption.
  - simpl in Hv. apply is_ok_true in Hv as (p & Hv).
    apply Panel_fields_inv in Hv
      as (ds & ms & c' & l' & _ & _ & _ & Hc' & Hall & _).
    rewrite Hc in Hc'. inversion Hc'; subst l'.
    eapply Forall2_In_ok; eassumption.
Qed.

Lemma occurs_valid s j s' j' :
  occurs s j s' j' -> valid_at s j = true -> valid_at s' j' = true.
Proof.
  induction 1 as [|s j s1 j1 s2 j2 Hstep _ IH]; intros Hv; [assumption|].
  apply IH. eapply step_valid; eassumption.
Qed.

(** A position that is not valid makes the whole document invalid. *)
Lemma invalid_below root s j :
  occurs RootSlot root s j -> valid_at s j = false ->
  exists es, CardNode_model_validate root = Err es.
Proof.
  intros Hocc Hbad. apply is_ok_false.
  destruct (is_ok (CardNode_model_validate root)) eqn:E; [|reflexivity].
  pose proof (occurs_valid _ _ _ _ Hocc E) as Hv. congruence.
Qed.

(** ** Validating a dump *)

Lemma items_v_map {A} (f : json -> result A) (g : A -> json) ys :
  Forall (fun y => f (g y) = Ok y) ys ->
  forall i, items_v f i (map g ys) = Ok ys.
Proof.
  intros H. apply items_v_ok_intro.
  induction H; simpl; constructor; auto.
Qed.

Lemma list_v_map {A} (f : json -> result A) (g : A -> json) ys :
  Forall (fun y => f (g y) = Ok y) ys ->
  list_v f (JList (map g ys)) = Ok ys.
Proof. intros H. simpl. now apply items_v_map. Qed.

Lemma list_str_v_dump l : list_v str_v (dump_strs l) = Ok l.
Proof. apply list_v_map. apply Forall_forall. reflexivity. Qed.

Lemma rows_v_dump r :
  list_v (list_v str_v) (JList (map dump_strs r)) = Ok r.
Proof.
  apply list_v_map. apply Forall_forall. intros l _. apply list_str_v_dump.
Qed.

Lemma opt_float_v_dump o : optional_v float_v (dump_opt_float o) = Ok o.
Proof. destruct o; reflexivity. Qed.

Lemma chartType_v_dump t : chartType_v (dump_chartType t) = Ok t.
Proof. destruct t; reflexivity. Qed.

Lemma direction_v_dump t : direction_v (dump_direction t) = Ok t.
Proof. destruct t; reflexivity. Qed.

(** [req_ok k H]: rewrites the required field [k] of a dictionary that
    stores a value [v] with [H : f v = Ok a]. *)
Lemma required_stored {A} k (f : json -> result A) v a d :
  f v = Ok a -> dict_get k d = Some v -> required k f d = Ok a.
Proof. intros Hv Hk. eapply required_ok_intro; eassumption. Qed.

Lemma with_default_stored {A} k (f : json -> result A) dflt v a d :
  f v = Ok a -> dict_get k d = Some v -> with_default k f dflt d = Ok a.
Proof.
  intros Hv Hk. unfold with_default. rewrite lookup_with_get, Hk. simpl.
  now rewrite Hv.
Qed.

Ltac req_ok k H := rewrite (required_stored k _ _ _ _ H) by reflexivity.
Ltac dflt_ok k H := rewrite (with_default_stored k _ _ _ _ _ H) by reflexivity.

Lemma literal_v_self s : literal_v [s] (JStr s) = Ok s.
Proof. simpl. unfold mem. simpl. now rewrite String.eqb_refl. Qed.

Lemma str_v_self s : str_v (JStr s) = Ok s.
Proof. reflexivity. Qed.

Lemma ChartSeries_v_dump s :
  model_v ChartSeries_fields (ChartSeries_dump s) = Ok s.
Proof.
  destruct s as [nm vs]. unfold ChartSeries_dump, model_v, ChartSeries_fields.
  unfold name, values.
  req_ok "name" (str_v_self nm).
  assert (list_v float_v (JList (map JFloat vs)) = Ok vs) as Hvs
    by (apply list_v_map, Forall_forall; reflexivity).
  req_ok "values" Hvs.
  reflexivity.
Qed.

Lemma TableNode_dump_ok c r :
  TableNode_fields
    [("kind", JStr "table"); ("columns", dump_strs c);
     ("rows", JList (map dump_strs r))] = Ok (TableNode c r).
Proof.
  unfold TableNode_fields.
  req_ok "kind" (literal_v_self "table").
  req_ok "columns" (list_str_v_dump c).
  req_ok "rows" (rows_v_dump r).
  reflexivity.
Qed.

Lemma BulletsNode_dump_ok l :
  BulletsNode_fields [("kind", JStr "bullets"); ("items", dump_strs l)] =
  Ok (BulletsNode l).
Proof.
  unfold BulletsNode_fields.
  req_ok "kind" (literal_v_self "bullets").
  req_ok "items" (list_str_v_dump l).
  reflexivity.
Qed.

Lemma ChartNode_dump_ok t c s :
  (c = [] -> s = []) ->
  Forall (fun x => length (values x) = length c) s ->
  ChartNode_fields
    [("kind", JStr "chart"); ("chartType", dump_chartType t);
     ("categories", dump_strs c);
     ("series", JList (map ChartSeries_dump s))] = Ok (ChartNode t c s).
Proof.
  intros Hempty Hlen. unfold ChartNode_fields.
  req_ok "kind" (literal_v_self "chart").
  req_ok "chartType" (chartType_v_dump t).
  req_ok "categories" (list_str_v_dump c).
  assert (list_v (model_v ChartSeries_fields)
            (JList (map ChartSeries_dump s)) = Ok s) as Hs.
  { apply list_v_map, Forall_forall. intros x _. apply ChartSeries_v_dump. }
  req_ok "series" Hs.
  cbv [closed forbid_extra ap after keys map filter fst negb mem existsb].
  simpl. apply validate_series_lengths_ok. auto.
Qed.

Lemma CardNode_dump_ok v c :
  Forall (fun y => v (model_dump y) = Ok y) c ->
  CardNode_fields v
    [("kind", JStr "card"); ("children", JList (map model_dump c))] =
  Ok (CardNode c).
Proof.
  intros Hc. unfold CardNode_fields.
  req_ok "kind" (literal_v_self "card").
  req_ok "children" (list_v_map v model_dump c Hc).
  reflexivity.
Qed.

Lemma Panel_dump_ok v ds ms c :
  Forall (fun y => v (model_dump y) = Ok y) c ->
  Panel_fields v
    [("defaultSize", dump_opt_float ds); ("minSize", dump_opt_float ms);
     ("children", JList (map model_dump c))] = Ok (mkPanel ds ms c).
Proof.
  intros Hc. unfold Panel_fields.
  dflt_ok "defaultSize" (opt_float_v_dump ds).
  dflt_ok "minSize" (opt_float_v_dump ms).
  req_ok "children" (list_v_map v model_dump c Hc).
  reflexivity.
Qed.

Lemma ResizableLayoutNode_dump_ok v dir ps :
  Forall (fun p => model_v (Panel_fields v) (Panel_dump p) = Ok p) ps ->
  ResizableLayoutNode_fields v
    [("kind", JStr "resizableLayout"); ("direction", dump_direction dir);
     ("panels", JList (map Panel_dump ps))] = Ok (ResizableLayoutNode dir ps).
Proof.
  intros Hps. unfold ResizableLayoutNode_fields.
  req_ok "kind" (literal_v_self "resizableLayout").
  req_ok "direction" (direction_v_dump dir).
  req_ok "panels" (list_v_map _ Panel_dump ps Hps).
  reflexivity.
Qed.

(** ** What a validated node says about its own fields *)

Ltac union_cases H :=
  first [apply Node_validate_inv in H | apply NonLayoutNode_validate_inv in H];
  destruct H as (? & _ & H);
  repeat (destruct H as [[_ H] | H]);
  match type of H with
  | _ /\ _ => destruct H as [_ H]
  | _ => idtac
  end.

Ltac class_inv H :=
  first
    [ apply CardNode_fields_inv in H as (? & ? & -> & _ & _ & H & _)
    | apply TitleNode_fields_inv in H as (? & -> & _)
    | apply SubtitleNode_fields_inv in H as (? & -> & _)
    | apply TextNode_fields_inv in H as (? & -> & _)
    | apply BulletsNode_fields_inv in H as (? & -> & _)
    | apply TableNode_fields_inv in H as (? & ? & -> & _)
    | apply ChartNode_fields_inv in H
        as (? & ? & ? & ? & -> & _ & _ & _ & _ & _ & H)
    | apply ResizableLayoutNode_fields_inv in H
        as (? & ? & ? & -> & _ & _ & _ & H & _) ].

Lemma union_shape j n :
  Node_validate j = Ok n \/ NonLayoutNode_validate j = Ok n ->
  match n with
  | CardNode c => exists l, Forall2 (fun x y => Node_validate x = Ok y) l c
  | ChartNode t c s =>
      (c = [] -> s = []) /\ Forall (fun x => length (values x) = length c) s
  | ResizableLayoutNode dir ps =>
      exists l, Forall2 (fun x y => Panel_validate x = Ok y) l ps
  | _ => True
  end.
Proof.
  intros [H|H]; union_cases H; class_inv H; simpl;
    try (destruct H as (? & ? & _)); eauto.
Qed.

Lemma NonLayoutNode_not_layout j dir ps :
  NonLayoutNode_validate j <> Ok (ResizableLayoutNode dir ps).
Proof.
  intros H. union_cases H;
    first
      [ apply CardNode_fields_inv in H as (? & ? & Hn & _)
      | apply TitleNode_fields_inv in H as (? & Hn & _)
      | apply SubtitleNode_fields_inv in H as (? & Hn & _)
      | apply TextNode_fields_inv in H as (? & Hn & _)
      | apply BulletsNode_fields_inv in H as (? & Hn & _)
      | apply TableNode_fields_inv in H as (? & ? & Hn & _)
      | apply ChartNode_fields_inv in H as (? & ? & ? & ? & Hn & _) ];
    discriminate.
Qed.

Lemma Forall2_transfer {A B} (R : A -> B -> Prop) (S : B -> Prop) l ys :
  Forall2 R l ys -> Forall (fun y => forall x, R x y -> S y) ys ->
  Forall S ys.
Proof.
  induction 1 as [|x y l ys Hx _ IH]; intros Hall; constructor;
    inversion Hall; subst; eauto.
Qed.

(** ** Round trip *)

(** [at_kind tag]: the union applied to a dictionary whose [kind] is the
    literal [tag] goes to that class. *)
Ltac at_kind tag :=
  match goal with
  | |- context [Node_validate (JDict ?d)] =>
      rewrite (Node_validate_kind d tag eq_refl)
  | |- context [NonLayoutNode_validate (JDict ?d)] =>
      rewrite (NonLayoutNode_validate_kind d tag eq_refl)
  end;
  cbn [String.eqb Ascii.eqb Bool.eqb].


Lemma occurs_step_r s j s1 j1 s2 j2 :
  occurs s j s1 j1 -> step s1 j1 s2 j2 -> occurs s j s2 j2.
Proof.
  induction 1 as [|s j sa ja sb jb Hstep _ IH]; intros Hlast.
  - eapply occurs_below; [eassumption | apply occurs_here].
  - eapply occurs_below; [eassumption | now apply IH].
Qed.

(** * The properties C1 - C10 *)

(** ** Tables *)

(** C1. The claim asks that validation succeed only if every row of a table
    is as long as [columns].  [TableNode] has no validator: any rows of
    strings are accepted, so the table with columns A, B and the single row
    [x] validates, as a node and inside a card at the root; the table with
    the row [x, y] validates as well. *)
Theorem table_rows_not_checked :
  (forall columns rows,
     Node_validate (raw_table columns rows) = Ok (TableNode columns rows)) /\
  Node_validate (raw_table ["A"; "B"] [["x"]]) =
    Ok (TableNode ["A"; "B"] [["x"]]) /\
  CardNode_model_validate (raw_card [raw_table ["A"; "B"] [["x"]]]) =
    Ok (CardNode [TableNode ["A"; "B"] [["x"]]]) /\
  Node_validate (raw_table ["A"; "B"] [["x"; "y"]]) =
    Ok (TableNode ["A"; "B"] [["x"; "y"]]).
Proof.
  repeat split; try reflexivity.
  intros columns rows. unfold raw_table.
  at_kind "table". rewrite TableNode_dump_ok. reflexivity.
Qed.

(** ** Charts *)

(** C2. A chart validates only if (a) empty [categories] come with empty
    [series] and (b) the [values] of every series are as many as the
    categories.  Empty categories with empty series validate; empty
    categories with a series do not; a series with one value for two
    categories does not, with two values it does. *)
Theorem chart_series_lengths :
  (forall s d cats ss,
     s = NodeSlot \/ s = NonLayoutSlot ->
     has_kind "chart" d ->
     dict_get "categories" d = Some (JList cats) ->
     dict_get "series" d = Some (JList ss) ->
     valid_at s (JDict d) = true ->
     (cats = [] -> ss = []) /\
     Forall (fun x => exists sd vs,
                 x = JDict sd /\ dict_get "values" sd = Some (JList vs) /\
                 length vs = length cats) ss) /\
  is_ok (Node_validate (raw_chart "line" [] [])) = true /\
  is_ok (Node_validate (raw_chart "line" [] [raw_series "Rev" []])) = false /\
  is_ok (Node_validate
           (raw_chart "bar" ["Q1"; "Q2"] [raw_series "Rev" [JInt 10]]))
    = false /\
  is_ok (Node_validate
           (raw_chart "bar" ["Q1"; "Q2"]
              [raw_series "Rev" [JInt 10; JInt 20]])) = true.
Proof.
  split; [|repeat split; reflexivity].
  intros s d cats ss Hs Hk Hcats Hss Hv.
  rewrite (valid_at_chart s d Hs Hk) in Hv.
  apply is_ok_true in Hv as (n & Hv).
  apply ChartNode_fields_inv in Hv
    as (t & c & sr & l & _ & _ & _ & Hc & Hl & Hall & Hempty & Hlen & _).
  rewrite Hcats in Hc. inversion Hc; subst cats.
  rewrite Hss in Hl. inversion Hl; subst l. clear Hc Hl.
  assert (length (map JStr c) = length c) as Elen by apply length_map.
  split.
  - intros E. destruct c; [|discriminate].
    rewrite (Hempty eq_refl) in Hall. now inversion Hall.
  - clear Hempty Hss. induction Hall as [|x y ss sr Hx _ IH];
      constructor.
    + apply model_v_ok_inv in Hx as (sd & -> & Hx).
      apply ChartSeries_fields_inv in Hx as (vs & _ & Hvs & Hvals & _).
      exists sd, vs. repeat split; auto.
      rewrite (Forall2_length_eq _ _ _ Hvals), Elen.
      now inversion Hlen.
    + apply IH. now inversion Hlen.
Qed.

Lemma chart_series_lengths_witness :
  valid_at NodeSlot
    (raw_chart "bar" ["Q1"; "Q2"] [raw_series "Rev" [JInt 10; JInt 20]])
    = true /\
  (([JStr "Q1"; JStr "Q2"] = [] ->
    [raw_series "Rev" [JInt 10; JInt 20]] = []) /\
   Forall (fun x => exists sd vs,
               x = JDict sd /\ dict_get "values" sd = Some (JList vs) /\
               length vs = 2%nat)
     [raw_series "Rev" [JInt 10; JInt 20]]).
Proof.
  split; [reflexivity|].
  exact (proj1 chart_series_lengths NodeSlot
           [("kind", JStr "chart"); ("chartType", JStr "bar");
            ("categories", dump_strs ["Q1"; "Q2"]);
            ("series", JList [raw_series "Rev" [JInt 10; JInt 20]])]
           [JStr "Q1"; JStr "Q2"]
           [raw_series "Rev" [JInt 10; JInt 20]]
           (or_introl eq_refl) eq_refl eq_refl eq_refl eq_refl).
Defined.

(** ** Numeric fields *)








(** ** Panels and layouts *)

(** C4. A document in which the [children] of some panel hold an object of
    kind [resizableLayout] fails validation. *)
Theorem panel_child_layout_rejected root d c x :
  occurs RootSlot root PanelSlot (JDict d) ->
  dict_get "children" d = Some (JList c) ->
  In (JDict x) c ->
  has_kind "resizableLayout" x ->
  exists es, CardNode_model_validate root = Err es.
Proof.
  intros Hocc Hc Hin Hk.
  apply (invalid_below root NonLayoutSlot (JDict x)).
  - eapply occurs_step_r; [exact Hocc|].
    eapply step_panel; eassumption.
  - apply (valid_at_layout x Hk).
Qed.

Lemma panel_child_layout_rejected_witness :
  exists es,
    CardNode_model_validate
      (raw_card
         [raw_layout "horizontal"
            [raw_panel [] [raw_text "ok"; raw_layout "vertical" []]]])
    = Err es.
Proof.
  refine (panel_child_layout_rejected _
            [("children", JList [raw_text "ok"; raw_layout "vertical" []])]
            [raw_text "ok"; raw_layout "vertical" []]
            [("kind", JStr "resizableLayout");
             ("direction", JStr "vertical"); ("panels", JList [])]
            _ eq_refl (or_intror (or_introl eq_refl)) eq_refl).
  eapply occurs_below.
  { eapply step_root; [reflexivity | left; reflexivity]. }
  eapply occurs_below.
  { eapply step_layout; [reflexivity | reflexivity | left; reflexivity]. }
  apply occurs_here.
Defined.

(** C10. The exclusion does not go through cards: a panel may hold a card,
    and that card may hold a [resizableLayout]; such a document validates. *)
Theorem layout_in_card_in_panel_valid :
  CardNode_model_validate layout_in_card_in_panel =
    Ok (CardNode
          [ResizableLayoutNode horizontal
             [mkPanel None None
                [CardNode
                   [ResizableLayoutNode vertical [mkPanel None None []]]]]])
  /\
  exists p c l,
    occurs RootSlot layout_in_card_in_panel PanelSlot p /\
    step PanelSlot p NonLayoutSlot (JDict c) /\ has_kind "card" c /\
    step NonLayoutSlot (JDict c) NodeSlot (JDict l) /\
    has_kind "resizableLayout" l.
Proof.
  split; [reflexivity|].
  exists (raw_panel [] [raw_card [raw_layout "vertical" [raw_panel [] []]]]),
    [("kind", JStr "card");
     ("children", JList [raw_layout "vertical" [raw_panel [] []]])],
    [("kind", JStr "resizableLayout"); ("direction", JStr "vertical");
     ("panels", JList [raw_panel [] []])].
  repeat split.
  - eapply occurs_below.
    { eapply step_root; [reflexivity | left; reflexivity]. }
    eapply occurs_below.
    { eapply step_layout; [reflexivity | reflexivity | left; reflexivity]. }
    apply occurs_here.
  - eapply step_panel; [reflexivity | left; reflexivity].
  - eapply step_card; [now right | reflexivity | reflexivity
                      | left; reflexivity].
Qed.

(** ** The root *)

Lemma root_kind_card raw d :
  CardNode_model_validate raw = Ok d ->
  exists o c, raw = JDict o /\ has_kind "card" o /\ d = CardNode c.
Proof.
  unfold CardNode_model_validate. intros H.
  apply model_v_ok_inv in H as (o & -> & H).
  apply CardNode_fields_inv in H as (c & l & -> & Hk & _).
  eauto.
Qed.

(** C5. The root validates as a [CardNode] only: a top-level value whose
    kind is not [card] is rejected by the validation step of
    [generate_card], which raises. *)
Theorem root_must_be_card raw :
  (forall d, raw = JDict d -> ~ has_kind "card" d) ->
  (exists es, CardNode_model_validate raw = Err es) /\
  (forall _call_model str_ValidationError query,
     _call_model query = Return raw ->
     exists msg cause,
       generate_card _call_model str_ValidationError query =
       Raise (ValueError msg cause)).
Proof.
  intros Hkind.
  assert (exists es, CardNode_model_validate raw = Err es) as [es Hes].
  { apply is_ok_false.
    destruct (is_ok (CardNode_model_validate raw)) eqn:E; [|reflexivity].
    apply is_ok_true in E as (d & E).
    apply root_kind_card in E as (o & c & -> & Hk & _).
    now destruct (Hkind o eq_refl). }
  split; [eauto|].
  intros call render q Hcall. unfold generate_card.
  rewrite Hcall, Hes. eauto.
Qed.

Lemma root_must_be_card_witness :
  Node_validate (raw_text "hello") = Ok (TextNode "hello") /\
  (exists es, CardNode_model_validate (raw_text "hello") = Err es) /\
  (forall _call_model str_ValidationError query,
     _call_model query = Return (raw_text "hello") ->
     exists msg cause,
       generate_card _call_model str_ValidationError query =
       Raise (ValueError msg cause)).
Proof.
  split; [reflexivity|].
  apply root_must_be_card.
  intros d E. inversion E; subst d. unfold has_kind. simpl. discriminate.
Defined.

(** ** Closed objects *)

(** The last part of each inversion lemma: the keys are declared fields. *)
Ltac last_part H :=
  repeat match type of H with
  | _ /\ _ => destruct H as [_ H]
  | ex _ => destruct H as [? H]
  end.

Ltac class_keys H :=
  first
    [ apply CardNode_fields_inv in H
    | apply TitleNode_fields_inv in H
    | apply SubtitleNode_fields_inv in H
    | apply TextNode_fields_inv in H
    | apply BulletsNode_fields_inv in H
    | apply TableNode_fields_inv in H
    | apply ChartNode_fields_inv in H
    | apply ResizableLayoutNode_fields_inv in H
    | apply Panel_fields_inv in H
    | apply ChartSeries_fields_inv in H ];
  last_part H.

Ltac union_keys Hv Hfs :=
  let Hk := fresh "Hk" in
  repeat (destruct Hv as [[Hk Hv] | Hv]);
  match type of Hv with
  | _ /\ _ => destruct Hv as [Hk Hv]
  | _ => idtac
  end;
  unfold has_kind in Hk; rewrite Hk in Hfs;
  inversion Hfs; subst; class_keys Hv; exact Hv.

Lemma valid_only_declared s d fs :
  valid_at s (JDict d) = true -> declared_fields s d = Some fs ->
  only_fields fs d.
Proof.
  intros Hv Hfs. destruct s; unfold valid_at in Hv; simpl in Hfs;
    apply is_ok_true in Hv as (n & Hv).
  - inversion Hfs; subst fs.
    unfold CardNode_model_validate, model_v in Hv. class_keys Hv. exact Hv.
  - apply Node_validate_inv in Hv as (d' & E & Hv). inversion E; subst d'.
    union_keys Hv Hfs.
  - apply NonLayoutNode_validate_inv in Hv as (d' & E & Hv).
    inversion E; subst d'.
    union_keys Hv Hfs.
  - inversion Hfs; subst fs. unfold Panel_validate, model_v in Hv.
    class_keys Hv. exact Hv.
  - inversion Hfs; subst fs. unfold model_v in Hv.
    class_keys Hv. exact Hv.
Qed.

(** C6. An object at any position of the document (a node of any class, a
    panel, a chart series) that carries a key outside the fields its class
    declares makes validation fail. *)
Theorem extra_field_rejected root s d fs k :
  occurs RootSlot root s (JDict d) ->
  declared_fields s d = Some fs ->
  In k (keys d) -> ~ In k fs ->
  valid_at s (JDict d) = false /\
  exists es, CardNode_model_validate root = Err es.
Proof.
  intros Hocc Hfs Hk Hnot.
  assert (valid_at s (JDict d) = false) as Hbad.
  { destruct (valid_at s (JDict d)) eqn:E; [|reflexivity].
    destruct Hnot. exact (valid_only_declared s d fs E Hfs k Hk). }
  split; [exact Hbad | eapply invalid_below; eassumption].
Qed.

Lemma extra_field_rejected_witness :
  valid_at NodeSlot
    (JDict [("kind", JStr "title"); ("text", JStr "x");
            ("style", JStr "bold")]) = false /\
  exists es,
    CardNode_model_validate
      (raw_card
         [JDict [("kind", JStr "title"); ("text", JStr "x");
                 ("style", JStr "bold")]]) = Err es.
Proof.
  refine (extra_field_rejected _ NodeSlot
            [("kind", JStr "title"); ("text", JStr "x");
             ("style", JStr "bold")]
            ["kind"; "text"] "style" _ eq_refl _ _).
  - eapply occurs_below; [|apply occurs_here].
    eapply step_root; [reflexivity | left; reflexivity].
  - simpl. auto.
  - simpl. intros [H|[H|[]]]; discriminate.
Defined.

(** ** The discriminator *)

Lemma valid_kind_recognized s d :
  node_slot s = true -> valid_at s (JDict d) = true ->
  exists tag, has_kind tag d /\ In tag recognized_kinds.
Proof.
  intros Hs Hv. unfold recognized_kinds.
  destruct s; try discriminate; unfold valid_at in Hv;
    apply is_ok_true in Hv as (n & Hv).
  - apply root_kind_card in Hv as (o & c & E & Hk & _).
    inversion E; subst o. exists "card". simpl. auto.
  - apply Node_validate_inv in Hv as (d' & E & Hv). inversion E; subst d'.
    repeat (destruct Hv as [[Hk _] | Hv];
            [eexists; split; [exact Hk | simpl; tauto] |]).
    destruct Hv as [Hk _]. eexists; split; [exact Hk | simpl; tauto].
  - apply NonLayoutNode_validate_inv in Hv as (d' & E & Hv).
    inversion E; subst d'.
    repeat (destruct Hv as [[Hk _] | Hv];
            [eexists; split; [exact Hk | simpl; tauto] |]).
    destruct Hv as [Hk _]. eexists; split; [exact Hk | simpl; tauto].
Qed.

Lemma union_error_here d :
  (forall tag, has_kind tag d -> ~ In tag recognized_kinds) ->
  exists t,
    Node_validate (JDict d) = Err [LineError [] t] /\
    NonLayoutNode_validate (JDict d) = Err [LineError [] t].
Proof.
  unfold has_kind. intros Hbad. simpl.
  destruct (dict_get "kind" d) as [[| | | |tag| |]|];
    try (eexists; split; reflexivity).
  specialize (Hbad tag eq_refl). unfold recognized_kinds in Hbad.
  simpl in Hbad.
  repeat match goal with
  | |- context [String.eqb tag ?lit] =>
      let E := fresh "E" in
      destruct (String.eqb tag lit) eqn:E;
      [apply String.eqb_eq in E; subst tag; exfalso; tauto |]
  end.
  eexists; split; reflexivity.
Qed.

(** C7. An object at a node position (the root, a child of a card, a child
    of a panel) whose [kind] is missing or is not one of the eight kinds
    fails validation at that position, and with it the document; at a
    child position the error is reported at the position itself. *)
Theorem unknown_kind_rejected root s d :
  occurs RootSlot root s (JDict d) ->
  node_slot s = true ->
  (forall tag, has_kind tag d -> ~ In tag recognized_kinds) ->
  valid_at s (JDict d) = false /\
  (exists es, CardNode_model_validate root = Err es) /\
  (exists t,
     Node_validate (JDict d) = Err [LineError [] t] /\
     NonLayoutNode_validate (JDict d) = Err [LineError [] t]).
Proof.
  intros Hocc Hs Hbad.
  assert (valid_at s (JDict d) = false) as Hinv.
  { destruct (valid_at s (JDict d)) eqn:E; [|reflexivity].
    destruct (valid_kind_recognized s d Hs E) as (tag & Hk & Hin).
    destruct (Hbad tag Hk Hin). }
  split; [exact Hinv|].
  split; [eapply invalid_below; eassumption | now apply union_error_here].
Qed.

Lemma unknown_kind_rejected_witness :
  valid_at NodeSlot (JDict [("kind", JStr "paragraph")]) = false /\
  (exists es,
     CardNode_model_validate
       (raw_card [raw_title "t"; JDict [("kind", JStr "paragraph")]])
     = Err es) /\
  (exists t,
     Node_validate (JDict [("kind", JStr "paragraph")]) =
       Err [LineError [] t] /\
     NonLayoutNode_validate (JDict [("kind", JStr "paragraph")]) =
       Err [LineError [] t]).
Proof.
  refine (unknown_kind_rejected _ NodeSlot [("kind", JStr "paragraph")]
            _ eq_refl _).
  - eapply occurs_below; [|apply occurs_here].
    eapply step_root; [reflexivity | right; left; reflexivity].
  - intros tag Hk Hin. unfold has_kind in Hk. simpl in Hk.
    inversion Hk; subst tag. simpl in Hin.
    repeat (destruct Hin as [Hin|Hin]; [discriminate|]). exact Hin.
Defined.

(** ** Round trip *)



(** ** Failures of [generate_card] *)

(** C9, as the claim states it, fails: what [generate_card] raises for an
    invalid document is a [ValueError] built from a message string, not an
    error value holding locations and reasons. *)
Lemma surfaced_error_not_structured :
  ~ (forall _call_model str_ValidationError query raw es,
       _call_model query = Return raw ->
       CardNode_model_validate raw = Err es ->
       exists e,
         generate_card _call_model str_ValidationError query = Raise e /\
         structured e).
Proof.
  intros H.
  destruct (H (fun _ => Return (raw_text "hello")) (fun _ => "invalid") "q"
              (raw_text "hello") _ eq_refl eq_refl) as (e & He & Hs).
  unfold generate_card in He. simpl in He. inversion He; subst e.
  exact Hs.
Qed.

(** C9, amended.  For a document that fails validation, [generate_card]
    raises a [ValueError] whose message is the fixed prefix followed by the
    text of the validation error; the [ValidationError] itself, with its
    locations and reasons, is kept as the cause only.  The endpoint turns
    it into an [HTTPException] with status 500 and that message as
    detail. *)
Theorem invalid_card_surfaces_as_text
    _call_model str_ValidationError query raw es :
  _call_model query = Return raw ->
  CardNode_model_validate raw = Err es ->
  let msg :=
    ("Model returned invalid card JSON: " ++ str_ValidationError es)%string in
  let exc := ValueError msg (Some (ValidationError es)) in
  generate_card _call_model str_ValidationError query = Raise exc /\
  generate_card_endpoint _call_model str_ValidationError query =
    Raise (HTTPException 500 msg (Some exc)).
Proof.
  intros Hcall Hes msg exc.
  assert (generate_card _call_model str_ValidationError query = Raise exc)
    as Hgen.
  { unfold generate_card. now rewrite Hcall, Hes. }
  split; [exact Hgen|].
  unfold generate_card_endpoint. rewrite Hgen. reflexivity.
Qed.

Lemma invalid_card_surfaces_as_text_witness :
  let es := [LineError [Key "kind"] literal_error;
             LineError [Key "children"] missing;
             LineError [Key "text"] extra_forbidden] in
  let exc := ValueError "Model returned invalid card JSON: 3 validation errors"
               (Some (ValidationError es)) in
  generate_card (fun _ => Return (raw_text "hello"))
    (fun _ => "3 validation errors") "q" = Raise exc /\
  generate_card_endpoint (fun _ => Return (raw_text "hello"))
    (fun _ => "3 validation errors") "q" =
    Raise (HTTPException 500
             "Model returned invalid card JSON: 3 validation errors"
             (Some exc)).
Proof.
  exact (invalid_card_surfaces_as_text
           (fun _ => Return (raw_text "hello"))
           (fun _ => "3 validation errors") "q" (raw_text "hello") _
           eq_refl eq_refl).
Defined.

(** * Further properties of the code *)

(** ** Validated documents are the well-formed ones *)

Lemma chart_rule_iff c s :
  chart_rule c s = true <->
  (c = [] -> s = []) /\ Forall (fun x => length (values x) = length c) s.
Proof.
  unfold chart_rule. rewrite andb_true_iff, forallb_forall, Forall_forall.
  split.
  - intros [Hempty Hlen]. split.
    + intros ->. destruct s; [reflexivity | discriminate].
    + intros x Hx. apply Nat.eqb_eq. now apply Hlen.
  - intros [Hempty Hlen]. split.
    + destruct c; simpl; [|reflexivity].
      now rewrite (Hempty eq_refl).
    + intros x Hx. apply Nat.eqb_eq. now apply Hlen.
Qed.

Lemma nodes_card c : nodes (CardNode c) = CardNode c :: flat_map nodes c.
Proof. reflexivity. Qed.

Lemma nodes_layout dir ps :
  nodes (ResizableLayoutNode dir ps) =
  ResizableLayoutNode dir ps :: flat_map Panel_nodes ps.
Proof. reflexivity. Qed.

Lemma Forall_forallb {A} (f : A -> bool) l :
  Forall (fun x => f x = true) l -> forallb f l = true.
Proof. intros H. apply forallb_forall. now apply Forall_forall. Qed.

Lemma validated_well_formed n :
  forall j,
    Node_validate j = Ok n \/ NonLayoutNode_validate j = Ok n ->
    well_formed n = true.
Proof.
  induction n using Node_ind with
    (Q := fun p => forall j, Panel_validate j = Ok p ->
                             Panel_well_formed p = true);
    intros j Hj; try reflexivity.
  - (* card *)
    apply union_shape in Hj as (l & Hl). simpl.
    apply Forall_forallb. eapply Forall2_transfer; [exact Hl|].
    eapply Forall_impl; [|exact H]. intros y Hy x Hx.
    apply (Hy x). now left.
  - (* chart *)
    apply union_shape in Hj. simpl. now apply chart_rule_iff.
  - (* resizableLayout *)
    apply union_shape in Hj as (l & Hl). simpl.
    apply Forall_forallb. eapply Forall2_transfer; [exact Hl|].
    eapply Forall_impl; [|exact H]. intros p Hp x Hx. exact (Hp x Hx).
  - (* panel *)
    unfold Panel_validate in Hj.
    apply model_v_ok_inv in Hj as (d & -> & Hj).
    apply Panel_fields_inv in Hj
      as (ds' & ms' & c' & l & Heq & _ & _ & _ & Hl & _).
    inversion Heq; subst ds' ms' c'. simpl.
    apply andb_true_iff. split; apply Forall_forallb.
    + eapply Forall2_transfer; [exact Hl|].
      apply Forall_forall. intros y _ x Hx.
      destruct y; try reflexivity.
      exfalso. eapply NonLayoutNode_not_layout; eassumption.
    + eapply Forall2_transfer; [exact Hl|].
      eapply Forall_impl; [|exact H]. intros y Hy x Hx.
      apply (Hy x). now right.
Qed.

Lemma well_formed_subtree n :
  well_formed n = true ->
  (forall m, In m (nodes n) -> well_formed m = true) /\
  (forall p, In p (panels_in n) -> Panel_well_formed p = true).
Proof.
  induction n using Node_ind with
    (Q := fun p => Panel_well_formed p = true ->
            (forall m, In m (Panel_nodes p) -> well_formed m = true) /\
            (forall q, In q (Panel_panels p) -> Panel_well_formed q = true));
    intros Hwf;
    try (split; [intros m [<-|[]]; exact Hwf | intros p []]).
  - (* card *)
    simpl in Hwf. rewrite forallb_forall in Hwf.
    rewrite Forall_forall in H. rewrite nodes_card. split.
    + intros m [<-|Hm].
      * simpl. now apply forallb_forall.
      * apply in_flat_map in Hm as (x & Hx & Hm).
        exact (proj1 (H x Hx (Hwf x Hx)) m Hm).
    + intros p Hp. simpl in Hp.
      apply in_flat_map in Hp as (x & Hx & Hp).
      exact (proj2 (H x Hx (Hwf x Hx)) p Hp).
  - (* resizableLayout *)
    simpl in Hwf. rewrite forallb_forall in Hwf.
    rewrite Forall_forall in H. rewrite nodes_layout. split.
    + intros m [<-|Hm].
      * simpl. now apply forallb_forall.
      * apply in_flat_map in Hm as (x & Hx & Hm).
        exact (proj1 (H x Hx (Hwf x Hx)) m Hm).
    + intros p Hp. simpl in Hp.
      apply in_flat_map in Hp as (x & Hx & Hp).
      exact (proj2 (H x Hx (Hwf x Hx)) p Hp).
  - (* panel *)
    pose proof Hwf as Hall. simpl in Hall.
    apply andb_true_iff in Hall as [_ Hall].
    rewrite forallb_forall in Hall. rewrite Forall_forall in H. split.
    + intros m Hm. simpl in Hm.
      apply in_flat_map in Hm as (x & Hx & Hm).
      exact (proj1 (H x Hx (Hall x Hx)) m Hm).
    + intros q [<-|Hq]; [exact Hwf|].
      apply in_flat_map in Hq as (x & Hx & Hq).
      exact (proj2 (H x Hx (Hall x Hx)) q Hq).
Qed.

Lemma root_well_formed raw d :
  CardNode_model_validate raw = Ok d -> well_formed d = true.
Proof.
  unfold CardNode_model_validate. intros H.
  apply model_v_ok_inv in H as (o & -> & H).
  apply CardNode_fields_inv in H as (c & l & -> & _ & _ & Hl & _).
  simpl. apply Forall_forallb. eapply Forall2_transfer; [exact Hl|].
  apply Forall_forall. intros y _ x Hx.
  apply (validated_well_formed y x). now left.
Qed.

(** X1. In a document produced by validation, every chart, at any depth,
    obeys the rule of [validate_series_lengths]: no series without
    categories, and as many values in each series as categories. *)
Theorem validated_charts_consistent raw d t c s :
  CardNode_model_validate raw = Ok d ->
  In (ChartNode t c s) (nodes d) ->
  (c = [] -> s = []) /\
  Forall (fun x => length (values x) = length c) s.
Proof.
  intros Hv Hin. apply chart_rule_iff.
  apply root_well_formed in Hv.
  exact (proj1 (well_formed_subtree d Hv) _ Hin).
Qed.

(** X2. In a document produced by validation, no panel, at any depth, has a
    [ResizableLayoutNode] among its children. *)
Theorem validated_panels_layout_free raw d p x :
  CardNode_model_validate raw = Ok d ->
  In p (panels_in d) -> In x (Panel_children p) ->
  is_layout x = false.
Proof.
  intros Hv Hp Hx. apply root_well_formed in Hv.
  pose proof (proj2 (well_formed_subtree d Hv) p Hp) as Hwf.
  destruct p as [ds ms c]. simpl in Hwf, Hx.
  apply andb_true_iff in Hwf as [Hfree _].
  rewrite forallb_forall in Hfree.
  apply negb_true_iff. now apply Hfree.
Qed.

Lemma validated_charts_consistent_witness :
  (["Mon"; "Tue"] = [] ->
   [mkChartSeries "This week" [Dec 1200 0; Dec 1350 0];
    mkChartSeries "Last week" [Dec 1050 0; Dec 1100 0]] = []) /\
  Forall (fun x => length (values x) = 2%nat)
    [mkChartSeries "This week" [Dec 1200 0; Dec 1350 0];
     mkChartSeries "Last week" [Dec 1050 0; Dec 1100 0]].
Proof.
  eapply (validated_charts_consistent EXAMPLE_CARD _ line).
  - reflexivity.
  - simpl. repeat (first [left; reflexivity | right]).
Defined.

Lemma validated_panels_layout_free_witness :
  is_layout
    (TableNode ["Day"; "This week"; "Last week"]
       [["Mon"; "1,200"; "1,050"]; ["Tue"; "1,350"; "1,100"]]) = false.
Proof.
  eapply (validated_panels_layout_free EXAMPLE_CARD _
            (mkPanel (Some (Dec 40 0)) None
               [TextNode "This week vs last week traffic comparison.";
                TableNode ["Day"; "This week"; "Last week"]
                  [["Mon"; "1,200"; "1,050"]; ["Tue"; "1,350"; "1,100"]]])).
  - reflexivity.
  - simpl. left. reflexivity.
  - simpl. right. left. reflexivity.
Defined.

Lemma well_formed_dump_valid n :
  well_formed n = true ->
  Node_validate (model_dump n) = Ok n /\
  (is_layout n = false -> NonLayoutNode_validate (model_dump n) = Ok n).
Proof.
  induction n using Node_ind with
    (Q := fun p => Panel_well_formed p = true ->
                   Panel_validate (Panel_dump p) = Ok p);
    intros Hwf; try (split; [|intros _]; reflexivity).
  - (* card *)
    simpl in Hwf. rewrite forallb_forall in Hwf. rewrite Forall_forall in H.
    assert (CardNode_fields Node_validate
              [("kind", JStr "card");
               ("children", JList (map model_dump c))] = Ok (CardNode c))
      as Hcard.
    { apply CardNode_dump_ok. apply Forall_forall. intros y Hy.
      exact (proj1 (H y Hy (Hwf y Hy))). }
    change (model_dump (CardNode c)) with
      (JDict [("kind", JStr "card"); ("children", JList (map model_dump c))]).
    split; [|intros _]; at_kind "card"; rewrite Hcard; reflexivity.
  - (* bullets *)
    change (model_dump (BulletsNode l)) with
      (JDict [("kind", JStr "bullets"); ("items", dump_strs l)]).
    split; [|intros _]; at_kind "bullets"; rewrite BulletsNode_dump_ok;
      reflexivity.
  - (* table *)
    change (model_dump (TableNode c r)) with
      (JDict [("kind", JStr "table"); ("columns", dump_strs c);
              ("rows", JList (map dump_strs r))]).
    split; [|intros _]; at_kind "table"; rewrite TableNode_dump_ok;
      reflexivity.
  - (* chart *)
    simpl in Hwf. apply chart_rule_iff in Hwf as [Hempty Hlen].
    pose proof (ChartNode_dump_ok t c s Hempty Hlen) as Hchart.
    change (model_dump (ChartNode t c s)) with
      (JDict [("kind", JStr "chart"); ("chartType", dump_chartType t);
              ("categories", dump_strs c);
              ("series", JList (map ChartSeries_dump s))]).
    split; [|intros _]; at_kind "chart"; rewrite Hchart; reflexivity.
  - (* resizableLayout *)
    simpl in Hwf. rewrite forallb_forall in Hwf. rewrite Forall_forall in H.
    split; [|discriminate].
    change (model_dump (ResizableLayoutNode dir ps)) with
      (JDict [("kind", JStr "resizableLayout");
              ("direction", dump_direction dir);
              ("panels", JList (map Panel_dump ps))]).
    at_kind "resizableLayout".
    rewrite ResizableLayoutNode_dump_ok; [reflexivity|].
    apply Forall_forall. intros p Hp. exact (H p Hp (Hwf p Hp)).
  - (* panel *)
    simpl in Hwf. apply andb_true_iff in Hwf as [Hfree Hall].
    rewrite forallb_forall in Hfree, Hall. rewrite Forall_forall in H.
    change (Panel_dump (mkPanel ds ms c)) with
      (JDict [("defaultSize", dump_opt_float ds);
              ("minSize", dump_opt_float ms);
              ("children", JList (map model_dump c))]).
    unfold Panel_validate, model_v. apply Panel_dump_ok.
    apply Forall_forall. intros y Hy.
    apply (proj2 (H y Hy (Hall y Hy))).
    apply negb_true_iff. now apply Hfree.
Qed.


(** ** The two unions *)

Lemma unions_agree j :
  (forall d, j = JDict d -> ~ has_kind "resizableLayout" d) ->
  NonLayoutNode_validate j = Node_validate j.
Proof.
  intros Hbad. destruct j as [| | | | | |d]; try reflexivity.
  specialize (Hbad d eq_refl). unfold has_kind in Hbad. simpl.
  destruct (dict_get "kind" d) as [[| | | |tag| |]|]; try reflexivity.
  repeat match goal with
  | |- context [String.eqb tag ?lit] =>
      destruct (String.eqb_spec tag lit) as [->|?];
      [first [reflexivity | now destruct Hbad] |]
  end.
  reflexivity.
Qed.

(** X4. [NonLayoutNode] is [Node] without the layout class: whatever
    validates as a panel child validates as a card child, to the same node,
    which is not a layout; and on every value that is not an object of kind
    [resizableLayout] the two unions return the same result, errors
    included. *)
Theorem unions_differ_on_layout_only j :
  (forall n, NonLayoutNode_validate j = Ok n ->
             Node_validate j = Ok n /\ is_layout n = false) /\
  ((forall d, j = JDict d -> ~ has_kind "resizableLayout" d) ->
   NonLayoutNode_validate j = Node_validate j).
Proof.
  split; [|apply unions_agree].
  intros n Hn. split.
  - rewrite <- Hn. symmetry. apply unions_agree.
    intros d -> Hk.
    pose proof (proj2 (valid_at_layout d Hk)) as Hbad.
    unfold valid_at in Hbad. rewrite Hn in Hbad. discriminate.
  - destruct n; try reflexivity.
    exfalso. eapply NonLayoutNode_not_layout; eassumption.
Qed.

Lemma unions_differ_on_layout_only_witness :
  NonLayoutNode_validate (raw_title "t") = Node_validate (raw_title "t") /\
  Node_validate (raw_text "x") = Ok (TextNode "x") /\
  is_layout (TextNode "x") = false.
Proof.
  split.
  - apply (proj2 (unions_differ_on_layout_only (raw_title "t"))).
    intros d E. inversion E; subst d. unfold has_kind. simpl. discriminate.
  - apply (proj1 (unions_differ_on_layout_only (raw_text "x"))).
    reflexivity.
Defined.

(** ** The root card *)


(** ** A failure always names an error *)

Lemma dict_get_member k d v : dict_get k d = Some v -> In (k, v) d.
Proof.
  induction d as [|[k' v'] rest IH]; simpl; [discriminate|].
  destruct (String.eqb k' k) eqn:E; intros H.
  - apply String.eqb_eq in E. inversion H; subst; auto.
  - right; now apply IH.
Qed.

Lemma at_loc_named {A} i (r : result A) : r <> Err [] -> at_loc i r <> Err [].
Proof. destruct r as [a|[|e es]]; simpl; congruence. Qed.

Lemma ap_named {A B} (rf : result (A -> B)) (ra : result A) :
  rf <> Err [] -> ra <> Err [] -> rf <*> ra <> Err [].
Proof.
  destruct rf as [f|[|e es]], ra as [a|[|e' es']]; simpl; congruence.
Qed.

Lemma closed_named {A} extra (r : result A) :
  r <> Err [] -> closed extra r <> Err [].
Proof. destruct r as [a|[|e es]], extra; simpl; congruence. Qed.

Lemma after_named {A B} (r : result A) (f : A -> result B) :
  r <> Err [] -> (forall a, f a <> Err []) -> after r f <> Err [].
Proof. destruct r as [a|[|e es]]; simpl; auto; congruence. Qed.

Lemma required_named {A} k (f : json -> result A) d :
  (forall kv, In kv d -> f (snd kv) <> Err []) -> required k f d <> Err [].
Proof.
  intros H. unfold required. rewrite lookup_with_get.
  destruct (dict_get k d) as [v|] eqn:E; simpl; [|discriminate].
  apply at_loc_named. apply (H (k, v)). now apply dict_get_member.
Qed.

Lemma with_default_named {A} k (f : json -> result A) dflt d :
  (forall kv, In kv d -> f (snd kv) <> Err []) ->
  with_default k f dflt d <> Err [].
Proof.
  intros H. unfold with_default. rewrite lookup_with_get.
  destruct (dict_get k d) as [v|] eqn:E; simpl; [|discriminate].
  apply at_loc_named. apply (H (k, v)). now apply dict_get_member.
Qed.

Lemma items_v_named {A} (f : json -> result A) l :
  Forall (fun x => f x <> Err []) l -> forall i, items_v f i l <> Err [].
Proof.
  induction 1 as [|x rest Hx _ IH]; simpl; intros i; [discriminate|].
  specialize (IH (S i)).
  destruct (f x) as [a|[|e es]]; simpl; [| congruence | discriminate].
  destruct (items_v f (S i) rest) as [b|[|e es]]; simpl; congruence.
Qed.

Lemma list_v_named {A} (f : json -> result A) j :
  (forall l, j = JList l -> Forall (fun x => f x <> Err []) l) ->
  list_v f j <> Err [].
Proof.
  destruct j; simpl; intros H; try discriminate.
  apply items_v_named. now apply H.
Qed.

Lemma list_v_named_all {A} (f : json -> result A) j :
  (forall x, f x <> Err []) -> list_v f j <> Err [].
Proof.
  intros H. apply list_v_named. intros l _. apply Forall_forall. auto.
Qed.

Lemma model_v_named {A} (f : dict -> result A) j :
  (forall d, j = JDict d -> f d <> Err []) -> model_v f j <> Err [].
Proof. destruct j; simpl; intros H; try discriminate. now apply H. Qed.

Lemma str_v_named j : str_v j <> Err [].
Proof. destruct j; discriminate. Qed.

Lemma literal_v_named allowed j : literal_v allowed j <> Err [].
Proof.
  destruct j; simpl; try discriminate. destruct (mem s allowed); discriminate.
Qed.

Lemma float_v_named j : float_v j <> Err [].
Proof.
  destruct j; simpl; try discriminate. destruct (str_as_float s); discriminate.
Qed.

Lemma opt_float_v_named j : optional_v float_v j <> Err [].
Proof.
  pose proof (float_v_named j) as H. unfold optional_v.
  destruct j, (float_v _) as [a|[|e es]]; congruence.
Qed.

Lemma chartType_v_named j : chartType_v j <> Err [].
Proof.
  pose proof (literal_v_named ["bar"; "line"] j) as H. unfold chartType_v.
  destruct (literal_v _ j) as [a|[|e es]]; congruence.
Qed.

Lemma direction_v_named j : direction_v j <> Err [].
Proof.
  pose proof (literal_v_named ["horizontal"; "vertical"] j) as H.
  unfold direction_v. destruct (literal_v _ j) as [a|[|e es]]; congruence.
Qed.

Lemma validate_series_lengths_named t c s :
  validate_series_lengths t c s <> Err [].
Proof.
  assert (forall n l, check_series n l <> Err []) as Hcheck.
  { intros n l. induction l as [|x rest IH]; simpl; [discriminate|].
    destruct (negb _); [discriminate | exact IH]. }
  unfold validate_series_lengths.
  specialize (Hcheck (length c) s).
  destruct c, s; try discriminate;
    destruct (check_series _ _) as [u|[|e es]]; congruence.
Qed.

(** The leaves of the schema: every field is checked by one of the
    validators above. *)
Ltac leaf_named :=
  repeat first
    [ apply closed_named | apply after_named | apply ap_named
    | apply required_named; intros ? _
    | apply with_default_named; intros ? _
    | apply list_v_named_all; intros ?
    | apply model_v_named; intros ? _
    | apply str_v_named | apply literal_v_named | apply float_v_named
    | apply opt_float_v_named | apply chartType_v_named
    | apply direction_v_named | discriminate ].

Lemma ChartSeries_fields_named d : ChartSeries_fields d <> Err [].
Proof. unfold ChartSeries_fields. leaf_named. Qed.

Lemma leaf_fields_named d :
  TitleNode_fields d <> Err [] /\ SubtitleNode_fields d <> Err [] /\
  TextNode_fields d <> Err [] /\ BulletsNode_fields d <> Err [] /\
  TableNode_fields d <> Err [] /\ ChartNode_fields d <> Err [].
Proof.
  unfold TitleNode_fields, SubtitleNode_fields, TextNode_fields,
    BulletsNode_fields, TableNode_fields, ChartNode_fields.
  repeat split; leaf_named.
  intros [[t c] s]. apply validate_series_lengths_named.
Qed.

(** A raw value all of whose validations name an error when they fail, and
    whose items do when it is a list. *)
Lemma validators_named j :
  (Node_validate j <> Err [] /\ NonLayoutNode_validate j <> Err [] /\
   Panel_validate j <> Err []) /\
  (forall l, j = JList l ->
     Forall (fun x => Node_validate x <> Err [] /\
                      NonLayoutNode_validate x <> Err [] /\
                      Panel_validate x <> Err []) l).
Proof.
  induction j as [| | | | |l IH|d IH] using json_ind;
    try (split; [repeat split; discriminate | intros l E; discriminate]).
  - (* list *)
    split; [repeat split; discriminate|].
    intros l' E. inversion E; subst l'.
    eapply Forall_impl; [|exact IH]. intros x Hx. exact (proj1 Hx).
  - (* dict *)
    split; [|intros l E; discriminate].
    rewrite Forall_forall in IH.
    assert (forall kv, In kv d ->
              list_v Node_validate (snd kv) <> Err []) as Hnodes.
    { intros kv Hkv. apply list_v_named. intros l E.
      eapply Forall_impl; [|exact (proj2 (IH kv Hkv) l E)].
      intros x Hx. exact (proj1 Hx). }
    assert (forall kv, In kv d ->
              list_v NonLayoutNode_validate (snd kv) <> Err []) as Hnon.
    { intros kv Hkv. apply list_v_named. intros l E.
      eapply Forall_impl; [|exact (proj2 (IH kv Hkv) l E)].
      intros x Hx. exact (proj1 (proj2 Hx)). }
    assert (forall kv, In kv d ->
              list_v Panel_validate (snd kv) <> Err []) as Hpanels.
    { intros kv Hkv. apply list_v_named. intros l E.
      eapply Forall_impl; [|exact (proj2 (IH kv Hkv) l E)].
      intros x Hx. exact (proj2 (proj2 Hx)). }
    assert (CardNode_fields Node_validate d <> Err []) as Hcard.
    { unfold CardNode_fields.
      apply closed_named, ap_named; [apply ap_named; [discriminate|]|].
      - apply required_named. intros kv _. apply literal_v_named.
      - apply required_named. exact Hnodes. }
    assert (ResizableLayoutNode_fields NonLayoutNode_validate d <> Err [])
      as Hlayout.
    { unfold ResizableLayoutNode_fields.
      apply closed_named, ap_named;
        [apply ap_named; [apply ap_named; [discriminate|]|]|].
      - apply required_named. intros kv _. apply literal_v_named.
      - apply required_named. intros kv _. apply direction_v_named.
      - apply required_named. exact Hpanels. }
    assert (Panel_fields NonLayoutNode_validate d <> Err []) as Hpanel.
    { unfold Panel_fields.
      apply closed_named, ap_named;
        [apply ap_named; [apply ap_named; [discriminate|]|]|].
      - apply with_default_named. intros kv _. apply opt_float_v_named.
      - apply with_default_named. intros kv _. apply opt_float_v_named.
      - apply required_named. exact Hnon. }
    destruct (leaf_fields_named d) as (Ht & Hs & Hx & Hb & Htab & Hch).
    repeat split; [| |exact Hpanel]; simpl;
      (destruct (dict_get "kind" d) as [[| | | |tag| |]|];
       try discriminate;
       repeat match goal with
       | |- context [String.eqb tag ?lit] =>
           destruct (String.eqb tag lit);
           [now apply at_loc_named |]
       end;
       discriminate).
Qed.

Lemma root_named raw : CardNode_model_validate raw <> Err [].
Proof.
  unfold CardNode_model_validate. apply model_v_named. intros d _.
  unfold CardNode_fields.
  apply closed_named, ap_named; [apply ap_named; [discriminate|]|].
  - apply required_named. intros kv _. apply literal_v_named.
  - apply required_named. intros kv _. apply list_v_named. intros l E.
    eapply Forall_impl; [|exact (proj2 (validators_named (snd kv)) l E)].
    intros x Hx. exact (proj1 Hx).
Qed.

(** X6. A failed validation always reports at least one located error, so
    the [ValidationError] that [generate_card] chains as the cause of its
    [ValueError] is never empty. *)
Theorem validation_failure_named call_model str_ValidationError query raw es :
  call_model query = Return raw ->
  CardNode_model_validate raw = Err es ->
  es <> [] /\
  exists msg,
    generate_card call_model str_ValidationError query =
      Raise (ValueError msg (Some (ValidationError es))) /\
    structured (ValidationError es).
Proof.
  intros Hcall Hes.
  assert (es <> []) as Hne.
  { intros ->. exact (root_named raw Hes). }
  split; [exact Hne|].
  unfold generate_card. rewrite Hcall, Hes.
  eexists. split; [reflexivity|].
  destruct es; [contradiction | exact I].
Qed.

Lemma validation_failure_named_witness :
  [LineError [Key "children"; Idx 0] union_tag_invalid] <> [] /\
  exists msg,
    generate_card
      (fun _ => Return (raw_card [JDict [("kind", JStr "paragraph")]]))
      (fun _ => "1 validation error") "q" =
      Raise (ValueError msg
               (Some (ValidationError
                        [LineError [Key "children"; Idx 0]
                           union_tag_invalid]))) /\
    structured
      (ValidationError [LineError [Key "children"; Idx 0] union_tag_invalid]).
Proof.
  exact (validation_failure_named
           (fun _ => Return (raw_card [JDict [("kind", JStr "paragraph")]]))
           (fun _ => "1 validation error") "q"
           (raw_card [JDict [("kind", JStr "paragraph")]]) _
           eq_refl eq_refl).
Defined.

(** ** Failures before validation (llm_client.py, main.py) *)

(** X7. Without an API key in the environment, unset or empty, the request
    fails before the model is asked: [generate_card] raises the
    [RuntimeError] of [_get_client] whatever the model would answer, and the
    endpoint answers 500 with that message. *)
Theorem missing_api_key_fails environ completion_content json_loads
    str_ValidationError query :
  environ "OPENAI_API_KEY" = None \/
  environ "OPENAI_API_KEY" = Some EmptyString ->
  let exc :=
    RuntimeError "OPENAI_API_KEY environment variable is not set" in
  let call := _call_model environ completion_content json_loads in
  generate_card call str_ValidationError query = Raise exc /\
  generate_card_endpoint call str_ValidationError query =
    Raise (HTTPException 500
             "OPENAI_API_KEY environment variable is not set" (Some exc)).
Proof.
  intros Henv exc call.
  assert (call query = Raise exc) as Hcall.
  { unfold call, _call_model, _get_client.
    destruct Henv as [-> | ->]; reflexivity. }
  assert (generate_card call str_ValidationError query = Raise exc) as Hgen.
  { unfold generate_card. now rewrite Hcall. }
  split; [exact Hgen|].
  unfold generate_card_endpoint. now rewrite Hgen.
Qed.

Lemma missing_api_key_fails_witness :
  let exc :=
    RuntimeError "OPENAI_API_KEY environment variable is not set" in
  let call :=
    _call_model (fun _ => None)
      (fun _ _ => Return (Some "{}")) (fun _ => Return (raw_card [])) in
  generate_card call (fun _ => "invalid") "q" = Raise exc /\
  generate_card_endpoint call (fun _ => "invalid") "q" =
    Raise (HTTPException 500
             "OPENAI_API_KEY environment variable is not set" (Some exc)).
Proof.
  exact (missing_api_key_fails (fun _ => None)
           (fun _ _ => Return (Some "{}")) (fun _ => Return (raw_card []))
           (fun _ => "invalid") "q" (or_introl eq_refl)).
Defined.

(** X8. With a key set, an answer without content, none or the empty
    string, is a [RuntimeError]: it is never handed to [json.loads] nor to
    validation. *)
Theorem empty_answer_fails environ completion_content json_loads
    str_ValidationError query key :
  environ "OPENAI_API_KEY" = Some key -> nonempty key = true ->
  completion_content (mkOpenAI key) query = Return None \/
  completion_content (mkOpenAI key) query = Return (Some EmptyString) ->
  generate_card (_call_model environ completion_content json_loads)
    str_ValidationError query =
  Raise (RuntimeError "Empty response from language model").
Proof.
  intros Henv Hkey Hcontent.
  unfold generate_card, _call_model, _get_client. rewrite Henv, Hkey.
  destruct Hcontent as [-> | ->]; reflexivity.
Qed.

Lemma empty_answer_fails_witness :
  generate_card
    (_call_model (fun _ => Some "sk-test") (fun _ _ => Return None)
       (fun _ => Return (raw_card [])))
    (fun _ => "invalid") "q" =
  Raise (RuntimeError "Empty response from language model").
Proof.
  exact (empty_answer_fails (fun _ => Some "sk-test")
           (fun _ _ => Return None) (fun _ => Return (raw_card []))
           (fun _ => "invalid") "q" "sk-test" eq_refl eq_refl
           (or_introl eq_refl)).
Defined.

(** X9. An answer that [json.loads] cannot parse surfaces as the parser's
    own exception, unchanged: only a parsed answer that fails validation
    gets the message prefix of [generate_card]. *)
Theorem unparsable_answer_propagates environ completion_content json_loads
    str_ValidationError query key content e :
  environ "OPENAI_API_KEY" = Some key -> nonempty key = true ->
  completion_content (mkOpenAI key) query = Return (Some content) ->
  nonempty content = true ->
  json_loads content = Raise e ->
  let call := _call_model environ completion_content json_loads in
  generate_card call str_ValidationError query = Raise e /\
  generate_card_endpoint call str_ValidationError query =
    Raise (HTTPException 500 (str_exn str_ValidationError e) (Some e)).
Proof.
  intros Henv Hkey Hcontent Hne Hloads call.
  assert (generate_card call str_ValidationError query = Raise e) as Hgen.
  { unfold generate_card, call, _call_model, _get_client.
    now rewrite Henv, Hkey, Hcontent, Hne, Hloads. }
  split; [exact Hgen|].
  unfold generate_card_endpoint. now rewrite Hgen.
Qed.

Lemma unparsable_answer_propagates_witness :
  let e := ValueError "Expecting value: line 1 column 1 (char 0)" None in
  let call :=
    _call_model (fun _ => Some "sk-test")
      (fun _ _ => Return (Some "not json")) (fun _ => Raise e) in
  generate_card call (fun _ => "invalid") "q" = Raise e /\
  generate_card_endpoint call (fun _ => "invalid") "q" =
    Raise (HTTPException 500 "Expecting value: line 1 column 1 (char 0)"
             (Some e)).
Proof.
  exact (unparsable_answer_propagates (fun _ => Some "sk-test")
           (fun _ _ => Return (Some "not json"))
           (fun _ => Raise
              (ValueError "Expecting value: line 1 column 1 (char 0)" None))
           (fun _ => "invalid") "q" "sk-test" "not json" _
           eq_refl eq_refl eq_refl eq_refl eq_refl).
Defined.


(** ** Text is kept as given *)

Lemma dict_get_absent k d : ~ In k (keys d) -> dict_get k d = None.
Proof.
  induction d as [|[k' v] rest IH]; simpl; intros H; [reflexivity|].
  destruct (String.eqb_spec k' k) as [->|Hne]; [destruct H; now left|].
  apply IH. intros Hin. apply H. now right.
Qed.

Lemma dict_get_cons k k' v rest :
  dict_get k ((k', v) :: rest) =
  if String.eqb k' k then Some v else dict_get k rest.
Proof. reflexivity. Qed.

(** [same_lookups Hf]: a dictionary of literal keys agrees with [d] on every
    key, the keys of [d] being among them ([Hf]) with the values at hand. *)
Ltac same_lookups Hf :=
  let k := fresh "k" in
  let Hin := fresh "Hin" in
  intros k;
  repeat (rewrite dict_get_cons;
          match goal with
          | |- context [String.eqb ?lit k] =>
              destruct (String.eqb_spec lit k) as [<-|?];
              [symmetry; assumption |]
          end);
  symmetry; apply dict_get_absent; intros Hin;
  apply Hf in Hin; simpl in Hin;
  repeat (destruct Hin as [Hin|Hin]; [contradiction|]); exact Hin.

(** X11. Nodes made of text only are kept verbatim: for a title, subtitle,
    text, bullets or table object that validates, the dump of the result
    has the same value as the input under every key; no string is coerced,
    dropped or added. *)
Theorem text_nodes_verbatim d n :
  Node_validate (JDict d) = Ok n ->
  has_kind "title" d \/ has_kind "subtitle" d \/ has_kind "text" d \/
  has_kind "bullets" d \/ has_kind "table" d ->
  exists d', model_dump n = JDict d' /\
             forall k, dict_get k d' = dict_get k d.
Proof.
  intros Hv Hkind.
  destruct Hkind as [Hk|[Hk|[Hk|[Hk|Hk]]]];
    rewrite (Node_validate_kind d _ Hk) in Hv; simpl in Hv;
    apply at_loc_ok_inv in Hv; unfold has_kind in Hk.
  - apply TitleNode_fields_inv in Hv as (t & -> & _ & Ht & Hf).
    eexists. split; [reflexivity|]. same_lookups Hf.
  - apply SubtitleNode_fields_inv in Hv as (t & -> & _ & Ht & Hf).
    eexists. split; [reflexivity|]. same_lookups Hf.
  - apply TextNode_fields_inv in Hv as (t & -> & _ & Ht & Hf).
    eexists. split; [reflexivity|]. same_lookups Hf.
  - apply BulletsNode_fields_inv in Hv as (l & -> & _ & Hl & Hf).
    eexists. split; [reflexivity|]. same_lookups Hf.
  - apply TableNode_fields_inv in Hv as (c & r & -> & _ & Hc & Hr & Hf).
    eexists. split; [reflexivity|]. same_lookups Hf.
Qed.

Lemma text_nodes_verbatim_witness :
  exists d',
    model_dump (TitleNode "Website traffic overview") = JDict d' /\
    forall k,
      dict_get k d' =
      dict_get k [("text", JStr "Website traffic overview");
                  ("kind", JStr "title")].
Proof.
  apply (text_nodes_verbatim
           [("text", JStr "Website traffic overview");
            ("kind", JStr "title")]).
  - reflexivity.
  - left. reflexivity.
Defined.

(** ** Every declared field is required, the panel sizes apart *)

Lemma dict_get_present k d v : dict_get k d = Some v -> In k (keys d).
Proof.
  intros H. apply dict_get_member in H.
  unfold keys. change k with (fst (k, v)). now apply in_map.
Qed.

Ltac flatten H :=
  repeat match type of H with
  | ex _ => let x := fresh "x" in destruct H as [x H]
  | _ /\ _ => let H' := fresh "Hpart" in destruct H as [H' H]
  end.

Ltac present Hin :=
  unfold has_kind in *; simpl in Hin;
  repeat (destruct Hin as [<-|Hin];
          [first [left; eapply dict_get_present; eassumption
                 | right; split; [reflexivity | tauto]] |]);
  contradiction.

Ltac union_present Hv Hfs Hin :=
  let Hk := fresh "Hk" in
  repeat (destruct Hv as [[Hk Hv] | Hv]);
  match type of Hv with
  | _ /\ _ => destruct Hv as [Hk Hv]
  | _ => idtac
  end;
  pose proof Hk as Hkind; unfold has_kind in Hkind; rewrite Hkind in Hfs;
  inversion Hfs; subst;
  first
    [ apply CardNode_fields_inv in Hv
    | apply TitleNode_fields_inv in Hv
    | apply SubtitleNode_fields_inv in Hv
    | apply TextNode_fields_inv in Hv
    | apply BulletsNode_fields_inv in Hv
    | apply TableNode_fields_inv in Hv
    | apply ChartNode_fields_inv in Hv
    | apply ResizableLayoutNode_fields_inv in Hv ];
  flatten Hv; present Hin.

Lemma valid_all_declared s d fs k :
  valid_at s (JDict d) = true -> declared_fields s d = Some fs ->
  In k fs ->
  In k (keys d) \/
  (s = PanelSlot /\ (k = "defaultSize" \/ k = "minSize")).
Proof.
  intros Hv Hfs Hin. destruct s; unfold valid_at in Hv; simpl in Hfs;
    apply is_ok_true in Hv as (n & Hv).
  - inversion Hfs; subst fs.
    unfold CardNode_model_validate, model_v in Hv.
    apply CardNode_fields_inv in Hv. flatten Hv. present Hin.
  - apply Node_validate_inv in Hv as (d' & E & Hv). inversion E; subst d'.
    union_present Hv Hfs Hin.
  - apply NonLayoutNode_validate_inv in Hv as (d' & E & Hv).
    inversion E; subst d'.
    union_present Hv Hfs Hin.
  - inversion Hfs; subst fs. unfold Panel_validate, model_v in Hv.
    apply Panel_fields_inv in Hv. flatten Hv. present Hin.
  - inversion Hfs; subst fs. unfold model_v in Hv.
    apply ChartSeries_fields_inv in Hv. flatten Hv. present Hin.
Qed.

(** X12. No field has a default except the two sizes of a panel: in a
    document that validates, every object at a position of the schema has
    every field its class declares, with the only exception of a panel's
    [defaultSize] and [minSize]. *)
Theorem declared_fields_required root s d fs k :
  is_ok (CardNode_model_validate root) = true ->
  occurs RootSlot root s (JDict d) ->
  declared_fields s d = Some fs -> In k fs ->
  In k (keys d) \/
  (s = PanelSlot /\ (k = "defaultSize" \/ k = "minSize")).
Proof.
  intros Hroot Hocc Hfs Hin.
  eapply valid_all_declared; [|eassumption|assumption].
  exact (occurs_valid _ _ _ _ Hocc Hroot).
Qed.

Lemma declared_fields_required_witness :
  In "rows"
    (keys [("kind", JStr "table"); ("columns", dump_strs ["A"]);
           ("rows", JList [dump_strs ["x"]])]) \/
  (NodeSlot = PanelSlot /\ ("rows" = "defaultSize" \/ "rows" = "minSize")).
Proof.
  apply (declared_fields_required (raw_card [raw_table ["A"] [["x"]]])
           NodeSlot _ ["kind"; "columns"; "rows"]).
  - reflexivity.
  - eapply occurs_below; [|apply occurs_here].
    eapply step_root; [reflexivity | left; reflexivity].
  - reflexivity.
  - simpl. auto.
Defined.

(** ** Enumerated fields *)

(** X13. In a document that validates, the [chartType] of every chart is
    [bar] or [line] and the [direction] of every layout is [horizontal] or
    [vertical]. *)
Theorem enumerated_fields_checked root s d :
  is_ok (CardNode_model_validate root) = true ->
  occurs RootSlot root s (JDict d) ->
  s = NodeSlot \/ s = NonLayoutSlot ->
  (has_kind "chart" d ->
   dict_get "chartType" d = Some (JStr "bar") \/
   dict_get "chartType" d = Some (JStr "line")) /\
  (has_kind "resizableLayout" d ->
   dict_get "direction" d = Some (JStr "horizontal") \/
   dict_get "direction" d = Some (JStr "vertical")).
Proof.
  intros Hroot Hocc Hs.
  pose proof (occurs_valid _ _ _ _ Hocc Hroot) as Hv.
  split; intros Hk.
  - rewrite (valid_at_chart s d Hs Hk) in Hv.
    apply is_ok_true in Hv as (n & Hv).
    apply ChartNode_fields_inv in Hv as (t & c & sr & l & _ & _ & Ht & _).
    destruct t; simpl in Ht; auto.
  - destruct (valid_at_layout d Hk) as [Hnode Hnon].
    destruct Hs as [-> | ->]; [|congruence].
    rewrite Hnode in Hv. apply is_ok_true in Hv as (n & Hv).
    apply ResizableLayoutNode_fields_inv in Hv
      as (dir & ps & l & _ & _ & Hdir & _).
    destruct dir; simpl in Hdir; auto.
Qed.

Lemma enumerated_fields_checked_witness :
  (has_kind "chart"
     [("kind", JStr "chart"); ("chartType", JStr "line");
      ("categories", dump_strs []); ("series", JList [])] ->
   dict_get "chartType"
     [("kind", JStr "chart"); ("chartType", JStr "line");
      ("categories", dump_strs []); ("series", JList [])]
     = Some (JStr "bar") \/
   dict_get "chartType"
     [("kind", JStr "chart"); ("chartType", JStr "line");
      ("categories", dump_strs []); ("series", JList [])]
     = Some (JStr "line")) /\
  (has_kind "resizableLayout"
     [("kind", JStr "chart"); ("chartType", JStr "line");
      ("categories", dump_strs []); ("series", JList [])] ->
   dict_get "direction"
     [("kind", JStr "chart"); ("chartType", JStr "line");
      ("categories", dump_strs []); ("series", JList [])]
     = Some (JStr "horizontal") \/
   dict_get "direction"
     [("kind", JStr "chart"); ("chartType", JStr "line");
      ("categories", dump_strs []); ("series", JList [])]
     = Some (JStr "vertical")).
Proof.
  apply (enumerated_fields_checked (raw_card [raw_chart "line" [] []])
           NodeSlot).
  - reflexivity.
  - eapply occurs_below; [|apply occurs_here].
    eapply step_root; [reflexivity | left; reflexivity].
  - now left.
Defined.

(** ** A size given as null *)

Lemma lookup_with_cons {A} (f : json -> A) k k' v rest :
  lookup_with f k ((k', v) :: rest) =
  if String.eqb k' k then Some (f v) else lookup_with f k rest.
Proof. reflexivity. Qed.

Lemma forbid_extra_cons_declared fs k v d :
  mem k fs = true -> forbid_extra fs ((k, v) :: d) = forbid_extra fs d.
Proof. intros H. unfold forbid_extra. simpl. now rewrite H. Qed.

(** X14. For a panel, a size given as null is the same as a size left out:
    adding [defaultSize] or [minSize] with value null to a panel object
    that lacks it changes neither the result nor the errors. *)
Theorem panel_null_size_is_unset v d k :
  k = "defaultSize" \/ k = "minSize" ->
  dict_get k d = None ->
  Panel_fields v ((k, JNull) :: d) = Panel_fields v d.
Proof.
  intros Hk Hnone. unfold Panel_fields, with_default, required.
  rewrite !lookup_with_cons.
  destruct Hk as [-> | ->];
    rewrite forbid_extra_cons_declared by reflexivity;
    cbn [String.eqb Ascii.eqb Bool.eqb];
    [rewrite (lookup_with_get (optional_v float_v) "defaultSize" d)
    |rewrite (lookup_with_get (optional_v float_v) "minSize" d)];
    rewrite Hnone; reflexivity.
Qed.

Lemma panel_null_size_is_unset_witness :
  Panel_fields NonLayoutNode_validate
    [("minSize", JNull); ("children", JList [raw_text "x"])] =
  Panel_fields NonLayoutNode_validate [("children", JList [raw_text "x"])].
Proof.
  exact (panel_null_size_is_unset NonLayoutNode_validate
           [("children", JList [raw_text "x"])] "minSize"
           (or_intror eq_refl) eq_refl).
Defined.

(** ** The dump determines the document *)

Lemma well_formed_card_valid d :
  (exists c, d = CardNode c) -> well_formed d = true ->
  CardNode_model_validate (model_dump d) = Ok d.
Proof.
  intros (c & ->) Hwf. simpl in Hwf. rewrite forallb_forall in Hwf.
  change (model_dump (CardNode c)) with
    (JDict [("kind", JStr "card"); ("children", JList (map model_dump c))]).
  unfold CardNode_model_validate, model_v. apply CardNode_dump_ok.
  apply Forall_forall. intros y Hy.
  exact (proj1 (well_formed_dump_valid y (Hwf y Hy))).
Qed.

(** X15. The dump loses nothing: two documents produced by validation that
    have the same dump are the same document. *)
Theorem validated_dump_injective raw1 raw2 d1 d2 :
  CardNode_model_validate raw1 = Ok d1 ->
  CardNode_model_validate raw2 = Ok d2 ->
  model_dump d1 = model_dump d2 ->
  d1 = d2.
Proof.
  intros H1 H2 Hdump.
  assert (CardNode_model_validate (model_dump d1) = Ok d1) as R1.
  { apply well_formed_card_valid; [|eapply root_well_formed; eassumption].
    apply root_kind_card in H1 as (o & c & _ & _ & ->). eauto. }
  assert (CardNode_model_validate (model_dump d2) = Ok d2) as R2.
  { apply well_formed_card_valid; [|eapply root_well_formed; eassumption].
    apply root_kind_card in H2 as (o & c & _ & _ & ->). eauto. }
  rewrite Hdump, R2 in R1. now inversion R1.
Qed.

Lemma validated_dump_injective_witness :
  CardNode [TitleNode "a"] = CardNode [TitleNode "a"].
Proof.
  exact (validated_dump_injective
           (raw_card [raw_title "a"])
           (raw_card [JDict [("text", JStr "a"); ("kind", JStr "title")]])
           _ _ eq_refl eq_refl eq_refl).
Defined.

(** ** Every invalid child is reported *)


Lemma errors_ap_l {A B} (rf : result (A -> B)) (ra : result A) e :
  In e (errors rf) -> In e (errors (rf <*> ra)).
Proof.
  destruct rf, ra; simpl; try contradiction; intros H;
    apply in_or_app; now left.
Qed.







(** ** Sizes are numbers, nothing more *)


